(** * minio/datatypes.py: parsing of S3 XML responses

    A shallow embedding of the response datatypes of the MinIO Python
    client (ListBuckets, ListObjects, ListObjectsV2, ListObjectVersions,
    ListParts, ListMultipartUploads and CompleteMultipartUpload) together
    with the properties the specification states about them.

    Python strings are modelled as [string]; a Python value that may be
    [None], a string, an integer, a timestamp or a dictionary, depending
    on the path taken, is a [value]; an exception is the [Raise] branch of
    [result]. *)

From Stdlib Require Import String Ascii List ZArith Bool Lia.
Import ListNotations.
Open Scope string_scope.
Open Scope list_scope.

Set Implicit Arguments.

(** ** Python builtins used by the module *)

Module Py.

(** The character [chr(34)], the double quote. *)
Definition quote : ascii := ascii_of_nat 34.

Definition rbrace : ascii := "}"%char.

(** [c.lower()] on the ASCII range; other bytes are left as they are. *)
Definition lower_char (c : ascii) : ascii :=
  let n := nat_of_ascii c in
  if ((65 <=? n) && (n <=? 90))%nat then ascii_of_nat (n + 32) else c.

(** [s.lower()] *)
Fixpoint lower (s : string) : string :=
  match s with
  | EmptyString => EmptyString
  | String c rest => String (lower_char c) (lower rest)
  end.

(** [s.replace(old, new)] for an [old] of one character: every
    occurrence of [old] is replaced, left to right. *)
Fixpoint replace (old : ascii) (new : string) (s : string) : string :=
  match s with
  | EmptyString => EmptyString
  | String c rest =>
      if Ascii.eqb c old then String.append new (replace old new rest)
      else String c (replace old new rest)
  end.

(** [sep in s] for a [sep] of one character. *)
Fixpoint contains (sep : ascii) (s : string) : bool :=
  match s with
  | EmptyString => false
  | String c rest => Ascii.eqb c sep || contains sep rest
  end.

(** [s.split(sep)] for a [sep] of one character. *)
Fixpoint split (sep : ascii) (s : string) : list string :=
  match s with
  | EmptyString => [EmptyString]
  | String c rest =>
      if Ascii.eqb c sep then EmptyString :: split sep rest
      else match split sep rest with
           | [] => [String c EmptyString]
           | piece :: pieces => String c piece :: pieces
           end
  end.

(** Truth value of a string: the empty string is false. *)
Definition truthy (s : string) : bool :=
  match s with
  | EmptyString => false
  | String _ _ => true
  end.

(** [l[-1] if l else None] *)
Fixpoint last_item {A : Type} (l : list A) : option A :=
  match l with
  | [] => None
  | [x] => Some x
  | _ :: rest => last_item rest
  end.

(** [s.endswith(suffix)] *)
Fixpoint endswith (s suffix : string) : bool :=
  if String.eqb s suffix then true
  else match s with
       | EmptyString => false
       | String _ rest => endswith rest suffix
       end.

(** [sep.join(l)] *)
Fixpoint join (sep : string) (l : list string) : string :=
  match l with
  | [] => EmptyString
  | [x] => x
  | x :: rest => String.append x (String.append sep (join sep rest))
  end.

(** [s.count(c)] for a [c] of one character. *)
Fixpoint count (c : ascii) (s : string) : nat :=
  match s with
  | EmptyString => 0
  | String a rest => (if Ascii.eqb a c then 1 else 0) + count c rest
  end.

End Py.

(** ** Exceptions and the error monad *)

Inductive exn : Type :=
| MalformedResponse
| ValueError
| UnicodeDecodeError
| ParseError.

Inductive result (A : Type) : Type :=
| Ok (a : A)
| Raise (e : exn).

Arguments Ok {A} a.
Arguments Raise {A} e.

Definition bind {A B : Type} (m : result A) (k : A -> result B) : result B :=
  match m with
  | Ok a => k a
  | Raise e => Raise e
  end.

Notation "x <- m ;; k" := (bind m (fun x => k))
  (at level 61, m at next level, right associativity).

(** A list comprehension [[f(x) for x in l]] whose body may raise: the
    elements are evaluated in order and the first exception escapes. *)
Fixpoint mapM {A B : Type} (f : A -> result B) (l : list A) : result (list B) :=
  match l with
  | [] => Ok []
  | x :: rest =>
      y <- f x ;;
      ys <- mapM f rest ;;
      Ok (y :: ys)
  end.

(** ** Values *)

(** A timestamp, as microseconds since the epoch in UTC. *)
Definition instant : Type := Z.

Inductive value : Type :=
| VNone
| VStr (s : string)
| VInt (n : Z)
| VDatetime (t : instant)
| VDict (d : list (string * option string)).

(** The value of a [findtext] result: [None] or a string. *)
Definition of_text (o : option string) : value :=
  match o with
  | None => VNone
  | Some s => VStr s
  end.

(** [d[key] = v] on a dictionary kept in insertion order. *)
Fixpoint dict_set (d : list (string * option string)) (key : string)
    (v : option string) : list (string * option string) :=
  match d with
  | [] => [(key, v)]
  | (k, w) :: rest =>
      if String.eqb k key then (k, v) :: rest
      else (k, w) :: dict_set rest key v
  end.

(** [d.get(key)]: the value stored under [key], when there is one. *)
Fixpoint dict_get (d : list (string * option string)) (key : string)
  : option (option string) :=
  match d with
  | [] => None
  | (k, w) :: rest => if String.eqb k key then Some w else dict_get rest key
  end.

(** ** XML elements (xml.etree.ElementTree) *)

Module ET.

(** An element: its tag (with the namespace in braces in front of it,
    when it has one), its text ([None] for an element without text) and
    its child elements in document order. *)
#[local] Unset Elimination Schemes.
Inductive Element : Type :=
| mkElement (tag : string) (text : option string) (children : list Element).
#[local] Set Elimination Schemes.

Definition tag (e : Element) : string :=
  match e with mkElement t _ _ => t end.

Definition text (e : Element) : option string :=
  match e with mkElement _ t _ => t end.

Definition children (e : Element) : list Element :=
  match e with mkElement _ _ c => c end.

End ET.

(** The tag of an element without its namespace, written as
    [Object.fromxml] writes it for the children of UserMetadata:
    [tag.split("}")[1] if "}" in tag else tag]. *)
Definition strip_namespace (tag : string) : string :=
  if Py.contains Py.rbrace tag
  then nth 1 (Py.split Py.rbrace tag) EmptyString
  else tag.

(** ** minio/xml.py *)

Module xml.

Definition has_name (name : string) (e : ET.Element) : bool :=
  String.eqb (strip_namespace (ET.tag e)) name.

(** Modelled from the spec: minio/xml.py is not among the sources. The
    specification gives [find(element, tagName) -> element|absent],
    matching child elements by local name whatever their namespace. *)
Definition find (element : ET.Element) (name : string) : option ET.Element :=
  List.find (has_name name) (ET.children element).

(** Modelled from the spec: minio/xml.py is not among the sources. The
    specification gives [findAll(element, tagName) -> sequence of
    element], in document order. *)
Definition findall (element : ET.Element) (name : string) : list ET.Element :=
  List.filter (has_name name) (ET.children element).

(** Modelled from the spec: minio/xml.py is not among the sources. This
    is [findtext(element, name)], the call without the required flag:
    the text of the element found, the empty string for an element
    without text, and [None] for an absent element. *)
Definition findtext (element : ET.Element) (name : string) : option string :=
  match find element name with
  | None => None
  | Some e =>
      match ET.text e with
      | None => Some EmptyString
      | Some t => Some t
      end
  end.

(** Modelled from the spec: minio/xml.py is not among the sources. This
    is [findtext(element, name, True)]: with the required flag the call
    fails with MalformedResponse when the tag is absent or empty. *)
Definition findtext_strict (element : ET.Element) (name : string) : result string :=
  match findtext element name with
  | None => Raise MalformedResponse
  | Some t => if Py.truthy t then Ok t else Raise MalformedResponse
  end.

End xml.

Import xml.

(** ** What the module takes from outside

    [bytes.decode], [ET.fromstring], [int] and [urllib.parse.unquote]
    belong to the Python library; [strptime_rfc3339] is in
    minio/helpers.py, which is not among the sources. The development is
    parametric in them. *)
Class Runtime : Type := {
  bytes_decode : string -> result string;
  ET_fromstring : string -> result ET.Element;
  py_int : string -> option Z;
  unquote : string -> string;
  strptime_rfc3339 : string -> result instant
}.

(** [int(s)]: raises ValueError when [s] is not a numeral. *)
Definition int {rt : Runtime} (s : string) : result Z :=
  match py_int s with
  | Some n => Ok n
  | None => Raise ValueError
  end.

(** The idiom [x = findtext(...)] followed by [if x: x = conv(x)], for a
    [conv] that may raise: an absent and an empty text are kept as they
    are. *)
Definition if_truthyM (conv : string -> result value) (x : option string)
  : result value :=
  match x with
  | None => Ok VNone
  | Some s => if Py.truthy s then conv s else Ok (VStr s)
  end.

(** The same idiom for a [conv] that does not raise. *)
Definition if_truthy (conv : string -> value) (x : option string) : value :=
  match x with
  | None => VNone
  | Some s => if Py.truthy s then conv s else VStr s
  end.

(** The idiom [None if tag is None else conv(tag)]. *)
Definition if_not_none (conv : string -> result value) (tag : option string)
  : result value :=
  match tag with
  | None => Ok VNone
  | Some s => conv s
  end.

(** [x or EMPTY], with EMPTY the empty string, for the result of [findtext]. *)
Definition or_empty (x : option string) : string :=
  match x with
  | None => EmptyString
  | Some s => if Py.truthy s then s else EmptyString
  end.

(** [None if tag is None else findtext(tag, name)] *)
Definition subtext (tag : option ET.Element) (name : string) : value :=
  match tag with
  | None => VNone
  | Some tag => of_text (findtext tag name)
  end.

(** [v is None] *)
Definition is_none (v : value) : bool :=
  match v with
  | VNone => true
  | _ => false
  end.

(** [VDatetime (strptime_rfc3339 s)] *)
Definition parse_time {rt : Runtime} (s : string) : result value :=
  t <- strptime_rfc3339 s ;;
  Ok (VDatetime t).

(** [VInt (int s)] *)
Definition parse_int {rt : Runtime} (s : string) : result value :=
  n <- int s ;;
  Ok (VInt n).

(** ** The HTTP response handed over by the transport *)

(** Modelled from the spec: the response object comes from the HTTP
    transport. The specification gives it an integer status code, an
    ordered header list of name and value pairs with case-insensitive
    name lookup, and the body as bytes. *)
Record Response : Type := mkResponse {
  status : Z;
  headers : list (string * string);
  data : string
}.

(** The values of the headers of [response] whose name is [name] in any
    letter case, in the order of the header list. *)
Definition header_values (response : Response) (name : string) : list string :=
  map snd
    (filter (fun h => String.eqb (Py.lower (fst h)) (Py.lower name))
       (headers response)).

(** Modelled from the spec: [response.getheader(name)] belongs to the HTTP
    transport, which is not among the sources. The specification gives a
    lookup by name that ignores the letter case; as the transport does,
    the values of a header that the response repeats are joined with a
    comma and a space, and a name without header gives [None]. *)
Definition getheader (response : Response) (name : string) : option string :=
  match header_values response name with
  | [] => None
  | v :: vs => Some (Py.join ", " (v :: vs))
  end.

Definition getheaders (response : Response) : list (string * string) :=
  headers response.

(** [ET.fromstring(response.data.decode())] *)
Definition parse_body {rt : Runtime} (response : Response) : result ET.Element :=
  body <- bytes_decode (data response) ;;
  ET_fromstring body.

(** ** class Bucket *)

Module Bucket.

Record t : Type := init {
  name : value;
  creation_date : value
}.

End Bucket.

(** ** class ListAllMyBucketsResult *)

Module ListAllMyBucketsResult.

Record t : Type := init {
  buckets : list Bucket.t
}.

Section FromXml.
Context {rt : Runtime}.

(** The body of the loop over the Bucket elements. *)
Definition bucket_of (bucket : ET.Element) : result Bucket.t :=
  name <- findtext_strict bucket "Name" ;;
  creation_date <- if_truthyM parse_time (findtext bucket "CreationDate") ;;
  Ok (Bucket.init (VStr name) creation_date).

Definition fromxml (element : ET.Element) : result t :=
  match find element "Buckets" with
  | None => Ok (init [])
  | Some element =>
      let elements := findall element "Bucket" in
      buckets <- mapM bucket_of elements ;;
      Ok (init buckets)
  end.

End FromXml.

End ListAllMyBucketsResult.

(** ** class Object *)

Module Object.

Record t : Type := init {
  bucket_name : value;
  object_name : value;
  last_modified : value;
  etag : value;
  size : value;
  metadata : value;
  version_id : value;
  is_latest : value;
  storage_class : value;
  owner_id : value;
  owner_name : value;
  content_type : value
}.

Section FromXml.
Context {rt : Runtime}.

(** The loop over the children of UserMetadata; [find(...) or []] has no
    children to offer when the element is absent. *)
Definition user_metadata (element : ET.Element) : list (string * option string) :=
  let tag :=
    match find element "UserMetadata" with
    | None => []
    | Some e => ET.children e
    end in
  fold_left
    (fun metadata child =>
       let key := strip_namespace (ET.tag child) in
       dict_set metadata key (ET.text child))
    tag [].

Definition fromxml (element : ET.Element) (bucket_name : value) : result t :=
  let tag := findtext element "LastModified" in
  last_modified <- if_not_none parse_time tag ;;
  let tag := findtext element "ETag" in
  let etag :=
    match tag with
    | None => VNone
    | Some tag => VStr (Py.replace Py.quote EmptyString tag)
    end in
  let tag := findtext element "Size" in
  size <- if_not_none parse_int tag ;;
  let tag := find element "Owner" in
  let '(owner_id, owner_name) :=
    match tag with
    | None => (VNone, VNone)
    | Some tag => (of_text (findtext tag "ID"), of_text (findtext tag "DisplayName"))
    end in
  let metadata := user_metadata element in
  Ok {| bucket_name := bucket_name;
        object_name := of_text (findtext element "Key");
        last_modified := last_modified;
        etag := etag;
        size := size;
        metadata := VDict metadata;
        version_id := of_text (findtext element "VersionId");
        is_latest := of_text (findtext element "IsLatest");
        storage_class := of_text (findtext element "StorageClass");
        owner_id := owner_id;
        owner_name := owner_name;
        content_type := VNone |}.

End FromXml.

(** [Object(bucket_name, object_name)]: the other arguments keep their
    default, [None]. *)
Definition init2 (bucket_name object_name : value) : t :=
  init bucket_name object_name VNone VNone VNone VNone VNone VNone VNone
    VNone VNone VNone.

(** The property [is_dir]: [self._object_name.endswith("/")]. The call
    raises AttributeError, here [None], for an object_name that is not a
    string. *)
Definition is_dir (self : t) : option bool :=
  match object_name self with
  | VStr name => Some (Py.endswith name "/")
  | _ => None
  end.

(** The property [is_delete_marker]:
    [self._size is None and self._version_id is not None]. *)
Definition is_delete_marker (self : t) : bool :=
  is_none (size self) && negb (is_none (version_id self)).

End Object.

(** ** parse_list_objects *)

Section ParseListObjects.
Context {rt : Runtime}.

(** The object built for one CommonPrefixes element. *)
Definition prefix_object (bucket_name : value) (tag : ET.Element) : Object.t :=
  Object.init2 bucket_name (of_text (findtext tag "Prefix")).

Definition parse_list_objects (response : Response) (bucket_name : value)
  : result (list Object.t * bool * value * value) :=
  element <- parse_body response ;;
  let elements := findall element "Contents" in
  objects <- mapM (fun tag => Object.fromxml tag bucket_name) elements ;;
  let marker :=
    match Py.last_item objects with
    | Some o => Object.object_name o
    | None => VNone
    end in
  let elements := findall element "Version" in
  versions <- mapM (fun tag => Object.fromxml tag bucket_name) elements ;;
  let objects := objects ++ versions in
  let elements := findall element "CommonPrefixes" in
  let objects := objects ++ map (prefix_object bucket_name) elements in
  let elements := findall element "DeleteMarker" in
  delete_markers <- mapM (fun tag => Object.fromxml tag bucket_name) elements ;;
  let objects := objects ++ delete_markers in
  let is_truncated :=
    String.eqb (Py.lower (or_empty (findtext element "IsTruncated"))) "true" in
  let key_marker := findtext element "NextKeyMarker" in
  let version_id_marker := findtext element "NextVersionIdMarker" in
  let continuation_token := of_text (findtext element "NextContinuationToken") in
  let continuation_token :=
    match key_marker with
    | Some key_marker => VStr key_marker
    | None => continuation_token
    end in
  let continuation_token :=
    if is_none continuation_token
    then of_text (findtext element "NextMarker")
    else continuation_token in
  let continuation_token :=
    if is_none continuation_token && is_truncated
    then marker
    else continuation_token in
  Ok (objects, is_truncated, continuation_token, of_text version_id_marker).

End ParseListObjects.

(** ** class CompleteMultipartUploadResult *)

Module CompleteMultipartUploadResult.

Record t : Type := mk {
  bucket_name : value;
  object_name : value;
  location : value;
  etag : value;
  version_id : value;
  http_headers : list (string * string)
}.

Section Init.
Context {rt : Runtime}.

Definition init (response : Response) : result t :=
  element <- parse_body response ;;
  let bucket_name := of_text (findtext element "Bucket") in
  let object_name := of_text (findtext element "Key") in
  let location := of_text (findtext element "Location") in
  let etag := findtext element "ETag" in
  let etag :=
    if_truthy (fun etag => VStr (Py.replace Py.quote EmptyString etag)) etag in
  let version_id := of_text (getheader response "x-amz-version-id") in
  let http_headers := getheaders response in
  Ok (mk bucket_name object_name location etag version_id http_headers).

End Init.

End CompleteMultipartUploadResult.

(** ** class Part *)

Module Part.

Record t : Type := init {
  part_number : value;
  etag : value;
  last_modified : value;
  size : value
}.

Section FromXml.
Context {rt : Runtime}.

Definition fromxml (element : ET.Element) : result t :=
  part_number <- findtext_strict element "PartNumber" ;;
  etag <- findtext_strict element "ETag" ;;
  let etag := Py.replace Py.quote EmptyString etag in
  let tag := findtext element "LastModified" in
  last_modified <- if_not_none parse_time tag ;;
  let size := findtext element "Size" in
  size <- if_truthyM parse_int size ;;
  Ok (init (VStr part_number) (VStr etag) last_modified size).

End FromXml.

End Part.

(** ** class ListPartsResult *)

Module ListPartsResult.

Record t : Type := mk {
  bucket_name : value;
  object_name : value;
  initiator_id : value;
  initiator_name : value;
  owner_id : value;
  owner_name : value;
  storage_class : value;
  part_number_marker : value;
  next_part_number_marker : value;
  max_parts : value;
  is_truncated : bool;
  parts : list Part.t
}.

Section Init.
Context {rt : Runtime}.

Definition init (response : Response) : result t :=
  element <- parse_body response ;;
  let bucket_name := of_text (findtext element "Bucket") in
  let object_name := of_text (findtext element "Key") in
  let tag := find element "Initiator" in
  let initiator_id := subtext tag "ID" in
  let initiator_name := subtext tag "DisplayName" in
  let tag := find element "Owner" in
  let owner_id := subtext tag "ID" in
  let owner_name := subtext tag "DisplayName" in
  let storage_class := of_text (findtext element "StorageClass") in
  let part_number_marker := of_text (findtext element "PartNumberMarker") in
  next_part_number_marker <-
    if_truthyM parse_int (findtext element "NextPartNumberMarker") ;;
  max_parts <- if_truthyM parse_int (findtext element "MaxParts") ;;
  let is_truncated := findtext element "IsTruncated" in
  let is_truncated :=
    match is_truncated with
    | None => false
    | Some is_truncated => String.eqb (Py.lower is_truncated) "true"
    end in
  parts <- mapM Part.fromxml (findall element "Part") ;;
  Ok (mk bucket_name object_name initiator_id initiator_name owner_id
        owner_name storage_class part_number_marker next_part_number_marker
        max_parts is_truncated parts).

End Init.

End ListPartsResult.

(** ** class Upload *)

Module Upload.

Record t : Type := mk {
  object_name : value;
  upload_id : value;
  initiator_id : value;
  initiator_name : value;
  owner_id : value;
  owner_name : value;
  storage_class : value;
  initiated_time : value
}.

Section Init.
Context {rt : Runtime}.

Definition init (element : ET.Element) : result t :=
  key <- findtext_strict element "Key" ;;
  let object_name := VStr (unquote key) in
  let upload_id := of_text (findtext element "UploadId") in
  let tag := find element "Initiator" in
  let initiator_id := subtext tag "ID" in
  let initiator_name := subtext tag "DisplayName" in
  let tag := find element "Owner" in
  let owner_id := subtext tag "ID" in
  let owner_name := subtext tag "DisplayName" in
  let storage_class := of_text (findtext element "StorageClass") in
  initiated_time <- if_truthyM parse_time (findtext element "Initiated") ;;
  Ok (mk object_name upload_id initiator_id initiator_name owner_id
        owner_name storage_class initiated_time).

End Init.

End Upload.

(** ** class ListMultipartUploadsResult *)

Module ListMultipartUploadsResult.

Record t : Type := mk {
  bucket_name : value;
  key_marker : value;
  upload_id_marker : value;
  next_key_marker : value;
  next_upload_id_marker : value;
  max_uploads : value;
  is_truncated : bool;
  uploads : list Upload.t
}.

Section Init.
Context {rt : Runtime}.

Definition init (response : Response) : result t :=
  element <- parse_body response ;;
  let bucket_name := of_text (findtext element "Bucket") in
  let key_marker :=
    if_truthy (fun s => VStr (unquote s)) (findtext element "KeyMarker") in
  let upload_id_marker := of_text (findtext element "UploadIdMarker") in
  let next_key_marker :=
    if_truthy (fun s => VStr (unquote s)) (findtext element "NextKeyMarker") in
  let next_upload_id_marker :=
    of_text (findtext element "NextUploadIdMarker") in
  max_uploads <- if_truthyM parse_int (findtext element "MaxUploads") ;;
  let is_truncated := findtext element "IsTruncated" in
  let is_truncated :=
    match is_truncated with
    | None => false
    | Some is_truncated => String.eqb (Py.lower is_truncated) "true"
    end in
  uploads <- mapM Upload.init (findall element "Upload") ;;
  Ok (mk bucket_name key_marker upload_id_marker next_key_marker
        next_upload_id_marker max_uploads is_truncated uploads).

End Init.

End ListMultipartUploadsResult.

(** What a bucket [b] read from a Bucket element [tag] has to hold: the
    text of Name, which is not empty, as name; and as creation_date
    nothing without a CreationDate, the parsed timestamp for a
    CreationDate with text, and the empty text for an empty one. *)
Definition bucket_reads {rt : Runtime} (tag : ET.Element) (b : Bucket.t) : Prop :=
  (exists name,
     findtext tag "Name" = Some name /\ name <> EmptyString /\
     Bucket.name b = VStr name) /\
  match findtext tag "CreationDate" with
  | None => Bucket.creation_date b = VNone
  | Some s =>
      if Py.truthy s
      then exists t, strptime_rfc3339 s = Ok t /\
                     Bucket.creation_date b = VDatetime t
      else Bucket.creation_date b = VStr s
  end.

(** [isinstance(v, int)] *)
Definition is_integer (v : value) : bool :=
  match v with
  | VInt _ => true
  | _ => false
  end.

(** The text [s] between two double quotes, as the service sends an ETag. *)
Definition quoted (s : string) : string :=
  String Py.quote (String.append s (String Py.quote EmptyString)).

(** ** Sample documents

    A stand-in for the library functions, used to run the parsers on
    concrete documents: the XML parser hands back the tree [doc] for the
    body it is given, [int] reads plain decimal numerals, and
    [strptime_rfc3339] knows one timestamp. *)

Fixpoint dec_digits (acc : Z) (s : string) : option Z :=
  match s with
  | EmptyString => Some acc
  | String c rest =>
      let n := nat_of_ascii c in
      if ((48 <=? n) && (n <=? 57))%nat
      then dec_digits (10 * acc + Z.of_nat (n - 48)) rest
      else None
  end.

Definition dec_int (s : string) : option Z :=
  match s with
  | EmptyString => None
  | String _ _ => dec_digits 0 s
  end.

Definition sample_time (s : string) : result instant :=
  if String.eqb s "2020-01-01T00:00:00.000Z" then Ok 1577836800000000%Z
  else Raise MalformedResponse.

Definition sample_runtime (doc : ET.Element) : Runtime := {|
  bytes_decode := fun b => Ok b;
  ET_fromstring := fun _ => Ok doc;
  py_int := dec_int;
  unquote := fun s => s;
  strptime_rfc3339 := sample_time
|}.

(** An element with text and no children. *)
Definition leaf (tag text : string) : ET.Element :=
  ET.mkElement tag (Some text) [].

(** An element with children and no text. *)
Definition node (tag : string) (children : list ET.Element) : ET.Element :=
  ET.mkElement tag None children.

Definition s3ns (name : string) : string :=
  String.append "{http://s3.amazonaws.com/doc/2006-03-01/}" name.

(** A truncated listing without any next-marker field: two Contents, one
    Version, one CommonPrefixes and one DeleteMarker, not grouped. *)
Definition sample_listing : ET.Element :=
  node (s3ns "ListBucketResult")
    [ leaf (s3ns "Name") "bucket";
      node (s3ns "DeleteMarker") [leaf (s3ns "Key") "D"; leaf (s3ns "VersionId") "3"];
      node (s3ns "Contents")
        [leaf (s3ns "Key") "A"; leaf (s3ns "ETag") (quoted "abc123");
         leaf (s3ns "Size") "12"];
      node (s3ns "CommonPrefixes") [leaf (s3ns "Prefix") "P/"];
      node (s3ns "Version") [leaf (s3ns "Key") "C"; leaf (s3ns "VersionId") "2"];
      node (s3ns "Contents") [leaf (s3ns "Key") "zzz"];
      leaf (s3ns "IsTruncated") "True" ].

(** The listing of the specification's example: Contents A and B, Version
    C, CommonPrefixes P and DeleteMarker D, in another order in the
    document. *)
Definition sample_listing_order : ET.Element :=
  node "ListVersionsResult"
    [ node "CommonPrefixes" [leaf "Prefix" "P"];
      node "Contents" [leaf "Key" "A"];
      node "DeleteMarker" [leaf "Key" "D"];
      node "Version" [leaf "Key" "C"];
      node "Contents" [leaf "Key" "B"] ].

(** A listing that carries both NextKeyMarker and NextContinuationToken. *)
Definition sample_listing_markers : ET.Element :=
  node "ListVersionsResult"
    [ node "Version" [leaf "Key" "C"];
      leaf "IsTruncated" "true";
      leaf "NextContinuationToken" "t1";
      leaf "NextKeyMarker" "k1";
      leaf "NextMarker" "m1" ].

Definition sample_part : ET.Element :=
  node "Part" [leaf "PartNumber" "1"; leaf "ETag" (quoted "e1")].

Definition sample_part_without_etag : ET.Element :=
  node "Part" [leaf "PartNumber" "1"; leaf "Size" "5"].

Definition sample_list_parts : ET.Element :=
  node "ListPartsResult"
    [ leaf "Bucket" "bucket"; leaf "Key" "object";
      leaf "NextPartNumberMarker" "2"; leaf "IsTruncated" "TRUE";
      sample_part ].

Definition sample_list_uploads : ET.Element :=
  node "ListMultipartUploadsResult"
    [ leaf "Bucket" "bucket"; leaf "IsTruncated" "true";
      node "Upload" [leaf "Key" "object"; leaf "UploadId" "u1"] ].

Definition sample_complete : ET.Element :=
  node "CompleteMultipartUploadResult"
    [ leaf "Location" "http://localhost:9000/bucket/object";
      leaf "Bucket" "bucket"; leaf "Key" "object";
      leaf "ETag" (quoted "abc123") ].

Definition sample_buckets : ET.Element :=
  node (s3ns "ListAllMyBucketsResult")
    [ node (s3ns "Owner") [leaf (s3ns "ID") "minio"];
      node (s3ns "Buckets")
        [ node (s3ns "Bucket")
            [leaf (s3ns "Name") "alpha";
             leaf (s3ns "CreationDate") "2020-01-01T00:00:00.000Z"];
          node (s3ns "Bucket") [leaf (s3ns "Name") "beta"] ] ].

Definition sample_response (hs : list (string * string)) : Response :=
  mkResponse 200 hs "<xml/>".

(** Two responses with the same body and the same version header, the
    second with one more header. *)
Definition sample_response_1 : Response :=
  sample_response [("x-amz-version-id", "v1")].

Definition sample_response_2 : Response :=
  sample_response [("x-amz-version-id", "v1"); ("Server", "MinIO")].

(** A response whose version header is spelled with capitals. *)
Definition sample_response_3 : Response :=
  sample_response
    [("Content-Type", "application/xml"); ("X-Amz-Version-Id", "v1")].

(** An element that the three ETag readers accept, with a quoted ETag. *)
Definition sample_quoted_etag : ET.Element :=
  node "Part"
    [ leaf "PartNumber" "3"; leaf "ETag" (quoted "abc123"); leaf "Key" "k" ].

(** An element whose ETag text has a quote in the middle. *)
Definition sample_inner_quote : ET.Element :=
  node "Part"
    [ leaf "PartNumber" "7";
      leaf "ETag" (String "a" (String Py.quote "b"));
      leaf "Key" "k" ].


(** The exception of the first element of [l] on which [f] raises, when
    there is one. *)
Fixpoint first_error {A B : Type} (f : A -> result B) (l : list A)
  : option exn :=
  match l with
  | [] => None
  | x :: rest =>
      match f x with
      | Ok _ => first_error f rest
      | Raise e => Some e
      end
  end.

(** One round of the loop of Object.fromxml over the children of
    UserMetadata. *)
Definition metadata_step (metadata : list (string * option string))
    (child : ET.Element) : list (string * option string) :=
  dict_set metadata (strip_namespace (ET.tag child)) (ET.text child).

(** The children of the UserMetadata element of [element], in document
    order: what the loop of Object.fromxml goes through. *)
Definition metadata_children (element : ET.Element) : list ET.Element :=
  match find element "UserMetadata" with
  | None => []
  | Some e => ET.children e
  end.

(** An object element with user metadata: one key is given twice and the
    tags carry a namespace. *)
Definition sample_object : ET.Element :=
  node (s3ns "Contents")
    [ leaf (s3ns "Key") "photos/";
      leaf (s3ns "Size") "0";
      leaf (s3ns "LastModified") "2020-01-01T00:00:00.000Z";
      node (s3ns "Owner") [leaf (s3ns "ID") "minio"];
      node (s3ns "UserMetadata")
        [ leaf (s3ns "color") "red";
          leaf "plain" "yes";
          leaf (s3ns "color") "blue";
          ET.mkElement (s3ns "empty") None [] ] ].

(** A delete marker: a version without Size. *)
Definition sample_delete_marker : ET.Element :=
  node "DeleteMarker"
    [leaf "Key" "gone"; leaf "VersionId" "v7"; leaf "IsLatest" "true"].

(** An object element whose Size is not a numeral. *)
Definition sample_bad_size : ET.Element :=
  node "Contents" [leaf "Key" "k"; leaf "Size" "big"].

(** A listing whose second Contents entry cannot be read. *)
Definition sample_listing_bad : ET.Element :=
  node "ListBucketResult"
    [ node "Contents" [leaf "Key" "A"];
      sample_bad_size;
      node "CommonPrefixes" [] ].

(** A part whose Size element is empty. *)
Definition sample_part_empty_size : ET.Element :=
  node "Part"
    [ leaf "PartNumber" "2"; leaf "ETag" "e2";
      ET.mkElement "Size" None [] ].

(** A part with a size. *)
Definition sample_part_sized : ET.Element :=
  node "Part" [leaf "PartNumber" "4"; leaf "ETag" "e4"; leaf "Size" "5242880"].

(** A ListParts document with two parts and both markers. *)
Definition sample_list_parts_full : ET.Element :=
  node "ListPartsResult"
    [ leaf "Bucket" "bucket"; leaf "Key" "object";
      sample_part_sized;
      leaf "PartNumberMarker" "1"; leaf "NextPartNumberMarker" "4";
      leaf "MaxParts" "1000";
      node "Owner" [leaf "DisplayName" "owner"];
      sample_part ].

(** A ListParts document whose NextPartNumberMarker is not a numeral. *)
Definition sample_list_parts_bad : ET.Element :=
  node "ListPartsResult"
    [ leaf "NextPartNumberMarker" "four"; sample_part_without_etag ].

(** A ListMultipartUploads document with two uploads and key markers. *)
Definition sample_list_uploads_full : ET.Element :=
  node "ListMultipartUploadsResult"
    [ leaf "KeyMarker" "a%20b"; leaf "UploadIdMarker" "id%201";
      node "Upload" [leaf "Key" "my%20key"; leaf "UploadId" "u1"];
      ET.mkElement "NextKeyMarker" None [];
      node "Upload" [leaf "Key" "other"] ].

(** A ListMultipartUploads document with an upload without Key. *)
Definition sample_list_uploads_bad : ET.Element :=
  node "ListMultipartUploadsResult"
    [ node "Upload" [leaf "Key" "k"]; node "Upload" [leaf "UploadId" "u"] ].

(** A bucket listing with Bucket elements outside the first Buckets
    container. *)
Definition sample_buckets_stray : ET.Element :=
  node "ListAllMyBucketsResult"
    [ node "Bucket" [leaf "Name" "stray"];
      node "Buckets" [node "Bucket" [leaf "Name" "alpha"]];
      node "Buckets" [node "Bucket" [leaf "Name" "second"]] ].

(** A runtime whose XML parser rejects every body. *)
Definition failing_runtime : Runtime := {|
  bytes_decode := fun b => Ok b;
  ET_fromstring := fun _ => Raise ParseError;
  py_int := dec_int;
  unquote := fun s => s;
  strptime_rfc3339 := sample_time
|}.

(** * Properties *)

(** ** The error monad *)

Lemma bind_ok {A B : Type} (m : result A) (k : A -> result B) (b : B) :
  bind m k = Ok b -> exists a, m = Ok a /\ k a = Ok b.
Proof.
  destruct m as [a | e]; simpl; intros H.
  - exists a. split; [reflexivity | exact H].
  - discriminate H.
Qed.

Ltac bind_inv H :=
  let a := fresh "a" in
  let Ha := fresh "Ha" in
  apply bind_ok in H; destruct H as [a [Ha H]].

Lemma mapM_Forall2 {A B : Type} (f : A -> result B) (l : list A) (l' : list B) :
  mapM f l = Ok l' <-> Forall2 (fun x y => f x = Ok y) l l'.
Proof.
  revert l'. induction l as [| x rest IH]; intros l'; simpl.
  - split; intros H.
    + injection H as <-. constructor.
    + inversion H. reflexivity.
  - split; intros H.
    + bind_inv H. bind_inv H. injection H as <-.
      constructor; [assumption | now apply IH].
    + inversion H as [| x0 y l0 ys Hxy Hrest]; subst.
      rewrite Hxy. simpl. apply IH in Hrest. rewrite Hrest. reflexivity.
Qed.

Lemma mapM_length {A B : Type} (f : A -> result B) (l : list A) (l' : list B) :
  mapM f l = Ok l' -> length l' = length l.
Proof.
  intros H. apply mapM_Forall2 in H.
  induction H; simpl; congruence.
Qed.

Lemma mapM_total {A B : Type} (f : A -> result B) (l : list A) :
  (forall x, In x l -> exists y, f x = Ok y) -> exists l', mapM f l = Ok l'.
Proof.
  induction l as [| x rest IH]; intros H; simpl.
  - now exists [].
  - destruct (H x (or_introl eq_refl)) as [y Hy].
    destruct IH as [ys Hys]; [intros z Hz; apply H; now right |].
    exists (y :: ys). rewrite Hy. simpl. rewrite Hys. reflexivity.
Qed.

(** The last item of a comprehension is the image of the last item. *)
Lemma mapM_last_item {A B : Type} (f : A -> result B) (l : list A) (l' : list B) :
  mapM f l = Ok l' ->
  match Py.last_item l with
  | None => Py.last_item l' = None
  | Some x => exists y, Py.last_item l' = Some y /\ f x = Ok y
  end.
Proof.
  intros H. apply mapM_Forall2 in H.
  induction H as [| x y l l' Hxy Hrest IH].
  - reflexivity.
  - destruct Hrest as [| x2 y2 l2 l2' Hxy2 Hrest2].
    + simpl. exists y. split; [reflexivity | assumption].
    + exact IH.
Qed.

(** ** Strings *)

Lemma replace_filter (c : ascii) (s : string) :
  list_ascii_of_string (Py.replace c EmptyString s)
  = filter (fun x => negb (Ascii.eqb x c)) (list_ascii_of_string s).
Proof.
  induction s as [| a rest IH]; simpl.
  - reflexivity.
  - destruct (Ascii.eqb a c); simpl; [exact IH | now rewrite IH].
Qed.

Lemma replace_contains (c : ascii) (s : string) :
  Py.contains c (Py.replace c EmptyString s) = false.
Proof.
  induction s as [| a rest IH]; simpl.
  - reflexivity.
  - destruct (Ascii.eqb a c) eqn:E; simpl; [exact IH |].
    now rewrite E, IH.
Qed.

Lemma replace_absent (c : ascii) (s : string) :
  Py.contains c s = false -> Py.replace c EmptyString s = s.
Proof.
  induction s as [| a rest IH]; simpl; intros H.
  - reflexivity.
  - apply orb_false_iff in H. destruct H as [Ha Hrest].
    rewrite Ha. now rewrite IH.
Qed.

Lemma replace_append (c : ascii) (s1 s2 : string) :
  Py.replace c EmptyString (String.append s1 s2)
  = String.append (Py.replace c EmptyString s1) (Py.replace c EmptyString s2).
Proof.
  induction s1 as [| a rest IH]; simpl.
  - reflexivity.
  - destruct (Ascii.eqb a c); simpl; now rewrite IH.
Qed.

Lemma append_empty_r (s : string) : String.append s EmptyString = s.
Proof.
  induction s as [| a rest IH]; simpl; [reflexivity | now rewrite IH].
Qed.

Lemma replace_quoted (s : string) :
  Py.replace Py.quote EmptyString (quoted s)
  = Py.replace Py.quote EmptyString s.
Proof.
  unfold quoted.
  change (Py.replace Py.quote EmptyString (String Py.quote ?x))
    with (Py.replace Py.quote EmptyString x).
  rewrite replace_append. simpl. apply append_empty_r.
Qed.

Lemma truthy_nonempty (s : string) : Py.truthy s = true <-> s <> EmptyString.
Proof.
  destruct s; simpl; split; intros H; congruence.
Qed.

(** ** Object.fromxml and parse_list_objects *)

Section ObjectListing.
Context {rt : Runtime}.

Lemma Object_fromxml_fields (element : ET.Element) (bucket_name : value)
    (o : Object.t) :
  Object.fromxml element bucket_name = Ok o ->
  Object.bucket_name o = bucket_name /\
  Object.object_name o = of_text (findtext element "Key") /\
  Object.etag o =
    match findtext element "ETag" with
    | None => VNone
    | Some t => VStr (Py.replace Py.quote EmptyString t)
    end /\
  Object.metadata o = VDict (Object.user_metadata element) /\
  Object.content_type o = VNone.
Proof.
  unfold Object.fromxml. intros H.
  bind_inv H. bind_inv H.
  destruct (find element "Owner"); injection H as <-; simpl; repeat split.
Qed.

(** Object.fromxml returns an object as soon as the timestamp and the
    size, when the element has them, can be read. *)
Lemma Object_fromxml_total (element : ET.Element) (bucket_name : value) :
  (forall s, findtext element "LastModified" = Some s ->
             exists t, strptime_rfc3339 s = Ok t) ->
  (forall s, findtext element "Size" = Some s -> exists n, py_int s = Some n) ->
  exists o, Object.fromxml element bucket_name = Ok o.
Proof.
  intros Htime Hsize. unfold Object.fromxml.
  destruct (findtext element "LastModified") as [lm |] eqn:Elm;
    [destruct (Htime lm eq_refl) as [t Ht]; simpl; unfold parse_time;
     rewrite Ht; simpl | simpl];
  (destruct (findtext element "Size") as [sz |] eqn:Esz;
    [destruct (Hsize sz eq_refl) as [n Hn]; simpl; unfold parse_int, int;
     rewrite Hn; simpl | simpl]);
  destruct (find element "Owner"); eexists; reflexivity.
Qed.

(** What parse_list_objects returns, read off its body. *)
Lemma parse_list_objects_ok (response : Response) (bucket_name : value)
    (objects : list Object.t) (is_truncated : bool)
    (continuation_token version_id_marker : value) :
  parse_list_objects response bucket_name
  = Ok (objects, is_truncated, continuation_token, version_id_marker) ->
  exists element contents versions delete_markers,
    parse_body response = Ok element /\
    mapM (fun tag => Object.fromxml tag bucket_name)
      (findall element "Contents") = Ok contents /\
    mapM (fun tag => Object.fromxml tag bucket_name)
      (findall element "Version") = Ok versions /\
    mapM (fun tag => Object.fromxml tag bucket_name)
      (findall element "DeleteMarker") = Ok delete_markers /\
    objects =
      ((contents ++ versions)
         ++ map (prefix_object bucket_name) (findall element "CommonPrefixes"))
        ++ delete_markers /\
    is_truncated =
      String.eqb (Py.lower (or_empty (findtext element "IsTruncated"))) "true" /\
    continuation_token =
      (let marker :=
         match Py.last_item contents with
         | Some o => Object.object_name o
         | None => VNone
         end in
       let token := of_text (findtext element "NextContinuationToken") in
       let token :=
         match findtext element "NextKeyMarker" with
         | Some key_marker => VStr key_marker
         | None => token
         end in
       let token :=
         if is_none token then of_text (findtext element "NextMarker")
         else token in
       if is_none token && is_truncated then marker else token) /\
    version_id_marker = of_text (findtext element "NextVersionIdMarker").
Proof.
  unfold parse_list_objects. intros H.
  bind_inv H. bind_inv H. bind_inv H. bind_inv H.
  injection H as <- <- <- <-.
  exists a, a0, a1, a2. repeat split; assumption.
Qed.

Lemma parse_list_objects_total (response : Response) (bucket_name : value)
    (element : ET.Element) (contents versions delete_markers : list Object.t) :
  parse_body response = Ok element ->
  mapM (fun tag => Object.fromxml tag bucket_name)
    (findall element "Contents") = Ok contents ->
  mapM (fun tag => Object.fromxml tag bucket_name)
    (findall element "Version") = Ok versions ->
  mapM (fun tag => Object.fromxml tag bucket_name)
    (findall element "DeleteMarker") = Ok delete_markers ->
  exists is_truncated continuation_token version_id_marker,
    parse_list_objects response bucket_name
    = Ok (contents ++ versions
            ++ map (prefix_object bucket_name) (findall element "CommonPrefixes")
            ++ delete_markers,
          is_truncated, continuation_token, version_id_marker).
Proof.
  intros Hbody Hc Hv Hd. unfold parse_list_objects.
  rewrite Hbody. simpl. rewrite Hc. simpl. rewrite Hv. simpl.
  rewrite Hd. simpl.
  do 3 eexists. rewrite <- !app_assoc. reflexivity.
Qed.

End ObjectListing.

(** ** Claims on the object listing *)

(** C1: the continuation token returned by parse_list_objects is the text
    of NextKeyMarker when the element is present; otherwise the text of
    NextContinuationToken; otherwise the text of NextMarker; otherwise,
    when is_truncated is true, the object_name of the last Contents entry
    (the text of its Key, and absent when the listing has no Contents
    entry), the Contents entries being the first objects of the returned
    sequence; otherwise it is absent. *)
Theorem continuation_token_precedence {rt : Runtime} (response : Response)
    (bucket_name : value) (element : ET.Element) (objects : list Object.t)
    (is_truncated : bool) (continuation_token version_id_marker : value) :
  parse_body response = Ok element ->
  parse_list_objects response bucket_name
  = Ok (objects, is_truncated, continuation_token, version_id_marker) ->
  continuation_token =
    match findtext element "NextKeyMarker" with
    | Some key_marker => VStr key_marker
    | None =>
        match findtext element "NextContinuationToken" with
        | Some token => VStr token
        | None =>
            match findtext element "NextMarker" with
            | Some marker => VStr marker
            | None =>
                if is_truncated then
                  match Py.last_item (findall element "Contents") with
                  | Some tag => of_text (findtext tag "Key")
                  | None => VNone
                  end
                else VNone
            end
        end
    end
  /\ exists contents others,
       objects = contents ++ others /\
       Forall2 (fun tag o => Object.fromxml tag bucket_name = Ok o)
         (findall element "Contents") contents /\
       match Py.last_item (findall element "Contents") with
       | Some tag => of_text (findtext tag "Key")
       | None => VNone
       end
       = match Py.last_item contents with
         | Some o => Object.object_name o
         | None => VNone
         end.
Proof.
  intros Hbody H.
  apply parse_list_objects_ok in H.
  destruct H as (element' & contents & versions & delete_markers & Hbody'
                 & Hc & Hv & Hd & Hobjs & Htr & Htok & Hvm).
  rewrite Hbody in Hbody'. injection Hbody' as <-.
  assert (Hlast :
    match Py.last_item (findall element "Contents") with
    | Some tag => of_text (findtext tag "Key")
    | None => VNone
    end
    = match Py.last_item contents with
      | Some o => Object.object_name o
      | None => VNone
      end).
  { pose proof (mapM_last_item _ _ Hc) as Hl.
    destruct (Py.last_item (findall element "Contents")) as [tag |].
    - destruct Hl as [o [Ho Hf]]. rewrite Ho.
      apply Object_fromxml_fields in Hf. symmetry. apply Hf.
    - now rewrite Hl. }
  split.
  - rewrite Htok, Hlast. cbv zeta.
    destruct (findtext element "NextKeyMarker") as [k |]; [reflexivity |].
    destruct (findtext element "NextContinuationToken") as [t |];
      [reflexivity |].
    destruct (findtext element "NextMarker") as [m |]; [reflexivity |].
    simpl. destruct is_truncated; reflexivity.
  - exists contents,
      (versions
         ++ map (prefix_object bucket_name) (findall element "CommonPrefixes")
         ++ delete_markers).
    split; [now rewrite Hobjs, <- !app_assoc |].
    split; [now apply mapM_Forall2 | exact Hlast].
Qed.

Lemma continuation_token_precedence_witness :
  @parse_body (sample_runtime sample_listing) (sample_response [])
  = Ok sample_listing /\
  (exists objects,
     @parse_list_objects (sample_runtime sample_listing) (sample_response [])
       (VStr "bucket")
     = Ok (objects, true, VStr "zzz", VNone)) /\
  VStr "zzz"
  = match Py.last_item (findall sample_listing "Contents") with
    | Some tag => of_text (findtext tag "Key")
    | None => VNone
    end.
Proof.
  split; [reflexivity |].
  split; [eexists; vm_compute; reflexivity |].
  exact (proj1 (@continuation_token_precedence (sample_runtime sample_listing)
                  (sample_response []) (VStr "bucket") sample_listing
                  _ true (VStr "zzz") VNone eq_refl eq_refl)).
Defined.

(** The two examples of the specification: NextKeyMarker wins over
    NextContinuationToken, and a truncated listing without any marker
    falls back on the last Contents key. *)
Example continuation_token_examples :
  (exists objects,
     @parse_list_objects (sample_runtime sample_listing_markers)
       (sample_response []) (VStr "bucket")
     = Ok (objects, true, VStr "k1", VNone)) /\
  (exists objects,
     @parse_list_objects (sample_runtime sample_listing)
       (sample_response []) (VStr "bucket")
     = Ok (objects, true, VStr "zzz", VNone)).
Proof.
  split; eexists; vm_compute; reflexivity.
Qed.

(** C3: the objects returned by parse_list_objects are the parsed Contents
    entries, then the Version entries, then the CommonPrefixes entries,
    then the DeleteMarker entries, each group in document order; and the
    listing is returned as soon as every entry of the three parsed groups
    is. *)
Theorem objects_concatenation_order {rt : Runtime} (response : Response)
    (bucket_name : value) (element : ET.Element) :
  parse_body response = Ok element ->
  (forall objects is_truncated continuation_token version_id_marker,
     parse_list_objects response bucket_name
     = Ok (objects, is_truncated, continuation_token, version_id_marker) ->
     exists contents versions delete_markers,
       Forall2 (fun tag o => Object.fromxml tag bucket_name = Ok o)
         (findall element "Contents") contents /\
       Forall2 (fun tag o => Object.fromxml tag bucket_name = Ok o)
         (findall element "Version") versions /\
       Forall2 (fun tag o => Object.fromxml tag bucket_name = Ok o)
         (findall element "DeleteMarker") delete_markers /\
       objects =
         contents ++ versions
           ++ map (prefix_object bucket_name) (findall element "CommonPrefixes")
           ++ delete_markers) /\
  (forall contents versions delete_markers,
     Forall2 (fun tag o => Object.fromxml tag bucket_name = Ok o)
       (findall element "Contents") contents ->
     Forall2 (fun tag o => Object.fromxml tag bucket_name = Ok o)
       (findall element "Version") versions ->
     Forall2 (fun tag o => Object.fromxml tag bucket_name = Ok o)
       (findall element "DeleteMarker") delete_markers ->
     exists is_truncated continuation_token version_id_marker,
       parse_list_objects response bucket_name
       = Ok (contents ++ versions
               ++ map (prefix_object bucket_name)
                    (findall element "CommonPrefixes")
               ++ delete_markers,
             is_truncated, continuation_token, version_id_marker)).
Proof.
  intros Hbody. split.
  - intros objects tr tok vm H.
    apply parse_list_objects_ok in H.
    destruct H as (element' & contents & versions & delete_markers & Hbody'
                   & Hc & Hv & Hd & Hobjs & _).
    rewrite Hbody in Hbody'. injection Hbody' as <-.
    exists contents, versions, delete_markers.
    repeat split; try (now apply mapM_Forall2).
    now rewrite Hobjs, <- !app_assoc.
  - intros contents versions delete_markers Hc Hv Hd.
    apply mapM_Forall2 in Hc, Hv, Hd.
    now apply parse_list_objects_total.
Qed.

Lemma objects_concatenation_order_witness :
  @parse_body (sample_runtime sample_listing_order) (sample_response [])
  = Ok sample_listing_order /\
  exists objects is_truncated continuation_token version_id_marker,
    @parse_list_objects (sample_runtime sample_listing_order)
      (sample_response []) (VStr "bucket")
    = Ok (objects, is_truncated, continuation_token, version_id_marker) /\
    map Object.object_name objects
    = [VStr "A"; VStr "B"; VStr "C"; VStr "P"; VStr "D"].
Proof.
  split; [reflexivity |].
  destruct (proj2 (@objects_concatenation_order
                     (sample_runtime sample_listing_order)
                     (sample_response []) (VStr "bucket")
                     sample_listing_order eq_refl)
              [ Object.init (VStr "bucket") (VStr "A") VNone VNone VNone
                  (VDict []) VNone VNone VNone VNone VNone VNone;
                Object.init (VStr "bucket") (VStr "B") VNone VNone VNone
                  (VDict []) VNone VNone VNone VNone VNone VNone ]
              [ Object.init (VStr "bucket") (VStr "C") VNone VNone VNone
                  (VDict []) VNone VNone VNone VNone VNone VNone ]
              [ Object.init (VStr "bucket") (VStr "D") VNone VNone VNone
                  (VDict []) VNone VNone VNone VNone VNone VNone ])
    as (tr & tok & vm & H).
  - repeat constructor.
  - repeat constructor.
  - repeat constructor.
  - eexists. exists tr, tok, vm. split; [exact H | reflexivity].
Defined.

(** C4: the object built for a CommonPrefixes entry is among the objects
    returned; it carries the bucket name given to parse_list_objects, its
    object_name is the text of the entry's Prefix and its
    last_modified, etag, size, metadata, version_id, is_latest,
    storage_class, owner_id, owner_name and content_type are absent; no
    object that Object.fromxml returns for a Contents, Version or
    DeleteMarker element is equal to it, since the metadata of those is
    a dictionary. *)
Theorem common_prefix_object {rt : Runtime} (response : Response)
    (bucket_name : value) (element : ET.Element) (objects : list Object.t)
    (is_truncated : bool) (continuation_token version_id_marker : value) :
  parse_body response = Ok element ->
  parse_list_objects response bucket_name
  = Ok (objects, is_truncated, continuation_token, version_id_marker) ->
  exists before after,
    objects =
      before
        ++ map (prefix_object bucket_name) (findall element "CommonPrefixes")
        ++ after /\
    forall tag, In tag (findall element "CommonPrefixes") ->
      let o := prefix_object bucket_name tag in
      In o objects /\
      Object.bucket_name o = bucket_name /\
      Object.object_name o = of_text (findtext tag "Prefix") /\
      Object.last_modified o = VNone /\
      Object.etag o = VNone /\
      Object.size o = VNone /\
      Object.metadata o = VNone /\
      Object.version_id o = VNone /\
      Object.is_latest o = VNone /\
      Object.storage_class o = VNone /\
      Object.owner_id o = VNone /\
      Object.owner_name o = VNone /\
      Object.content_type o = VNone /\
      forall tag' bucket_name' o',
        Object.fromxml tag' bucket_name' = Ok o' ->
        Object.metadata o' <> VNone /\ o' <> o.
Proof.
  intros Hbody H.
  apply parse_list_objects_ok in H.
  destruct H as (element' & contents & versions & delete_markers & Hbody'
                 & _ & _ & _ & Hobjs & _).
  rewrite Hbody in Hbody'. injection Hbody' as <-.
  exists (contents ++ versions), delete_markers.
  split; [now rewrite Hobjs, <- !app_assoc |].
  intros tag Hin o.
  split.
  { rewrite Hobjs. apply in_or_app. left. apply in_or_app. right.
    now apply in_map. }
  repeat (split; [reflexivity |]).
  intros tag' b' o' Hf.
  apply Object_fromxml_fields in Hf.
  destruct Hf as (_ & _ & _ & Hmeta & _).
  split; [rewrite Hmeta; discriminate |].
  intros ->. simpl in Hmeta. discriminate Hmeta.
Qed.

Lemma common_prefix_object_witness :
  @parse_body (sample_runtime sample_listing) (sample_response [])
  = Ok sample_listing /\
  exists objects,
    @parse_list_objects (sample_runtime sample_listing) (sample_response [])
      (VStr "bucket")
    = Ok (objects, true, VStr "zzz", VNone) /\
    In (node (s3ns "CommonPrefixes") [leaf (s3ns "Prefix") "P/"])
      (findall sample_listing "CommonPrefixes") /\
    In (Object.init2 (VStr "bucket") (VStr "P/")) objects.
Proof.
  split; [reflexivity |].
  eexists. split; [vm_compute; reflexivity |].
  split; [left; reflexivity |].
  destruct (@common_prefix_object (sample_runtime sample_listing)
              (sample_response []) (VStr "bucket") sample_listing
              _ true (VStr "zzz") VNone eq_refl eq_refl)
    as (before & after & _ & Hall).
  exact (proj1 (Hall (node (s3ns "CommonPrefixes") [leaf (s3ns "Prefix") "P/"])
                  (or_introl eq_refl))).
Defined.

(** ** The truncation flag *)

Lemma or_empty_is_true (x : option string) :
  String.eqb (Py.lower (or_empty x)) "true" = true
  <-> exists t, x = Some t /\ Py.lower t = "true".
Proof.
  destruct x as [t |]; unfold or_empty.
  - destruct t as [| c rest]; cbn [Py.truthy].
    + split; [discriminate | intros (t & Ht & Hl)].
      injection Ht as <-. discriminate Hl.
    + rewrite String.eqb_eq. split.
      * intros H. exists (String c rest). split; [reflexivity | exact H].
      * intros (t & Ht & Hl). injection Ht as <-. exact Hl.
  - split; [discriminate | intros (t & Ht & _); discriminate Ht].
Qed.

Lemma not_none_is_true (x : option string) :
  match x with
  | None => false
  | Some t => String.eqb (Py.lower t) "true"
  end = true
  <-> exists t, x = Some t /\ Py.lower t = "true".
Proof.
  destruct x as [t |].
  - rewrite String.eqb_eq. split.
    + intros H. exists t. split; [reflexivity | exact H].
    + intros (t' & Ht & Hl). injection Ht as <-. exact Hl.
  - split; [discriminate | intros (t & Ht & _); discriminate Ht].
Qed.

Lemma if_truthyM_int_ok {rt : Runtime} (x : option string) :
  (exists v, if_truthyM parse_int x = Ok v)
  <-> forall s, x = Some s -> s <> EmptyString -> exists n, py_int s = Some n.
Proof.
  unfold if_truthyM, parse_int, int. destruct x as [s |].
  - destruct (Py.truthy s) eqn:E.
    + split.
      * intros [v Hv] s' Hs' _. injection Hs' as <-.
        destruct (py_int s) as [n |]; [now exists n | discriminate].
      * intros H. destruct (H s eq_refl) as [n Hn];
          [now apply truthy_nonempty |].
        rewrite Hn. now eexists.
    + split; [| intros _; now eexists].
      intros _ s' Hs' Hne. injection Hs' as <-.
      apply truthy_nonempty in Hne. congruence.
  - split; [intros _ s Hs; discriminate Hs | intros _; now eexists].
Qed.

Section Totality.
Context {rt : Runtime}.

(** parse_list_objects returns a listing once the body is parsed and
    every Contents, Version and DeleteMarker entry is read. *)
Lemma parse_list_objects_returns (response : Response) (bucket_name : value)
    (element : ET.Element) :
  parse_body response = Ok element ->
  (forall tag,
     In tag (findall element "Contents" ++ findall element "Version"
               ++ findall element "DeleteMarker") ->
     exists o, Object.fromxml tag bucket_name = Ok o) ->
  exists objects is_truncated continuation_token version_id_marker,
    parse_list_objects response bucket_name
    = Ok (objects, is_truncated, continuation_token, version_id_marker).
Proof.
  intros Hbody Hall.
  destruct (mapM_total (fun tag => Object.fromxml tag bucket_name)
              (findall element "Contents")) as [contents Hc].
  { intros tag Hin. apply Hall. apply in_or_app. now left. }
  destruct (mapM_total (fun tag => Object.fromxml tag bucket_name)
              (findall element "Version")) as [versions Hv].
  { intros tag Hin. apply Hall.
    apply in_or_app. right. apply in_or_app. now left. }
  destruct (mapM_total (fun tag => Object.fromxml tag bucket_name)
              (findall element "DeleteMarker")) as [delete_markers Hd].
  { intros tag Hin. apply Hall.
    apply in_or_app. right. apply in_or_app. now right. }
  destruct (parse_list_objects_total response bucket_name Hbody Hc Hv Hd)
    as (tr & tok & vm & H).
  eexists. exists tr, tok, vm. exact H.
Qed.

(** ListPartsResult is built once the body is parsed, the two numbers,
    where they have text, are read by int and every Part is read. *)
Lemma ListPartsResult_init_returns (response : Response)
    (element : ET.Element) :
  parse_body response = Ok element ->
  (forall s, findtext element "NextPartNumberMarker" = Some s ->
             s <> EmptyString -> exists n, py_int s = Some n) ->
  (forall s, findtext element "MaxParts" = Some s ->
             s <> EmptyString -> exists n, py_int s = Some n) ->
  (forall tag, In tag (findall element "Part") ->
               exists p, Part.fromxml tag = Ok p) ->
  exists r, ListPartsResult.init response = Ok r.
Proof.
  intros Hbody Hn Hm Hp.
  apply if_truthyM_int_ok in Hn, Hm.
  destruct Hn as [n Hn]. destruct Hm as [m Hm].
  destruct (mapM_total Part.fromxml (findall element "Part") Hp) as [ps Hps].
  unfold ListPartsResult.init. rewrite Hbody. simpl.
  rewrite Hn. simpl. rewrite Hm. simpl. rewrite Hps. simpl.
  now eexists.
Qed.

(** ListMultipartUploadsResult is built once the body is parsed, the
    MaxUploads text, if it has any, is read by int and every Upload is
    read. *)
Lemma ListMultipartUploadsResult_init_returns (response : Response)
    (element : ET.Element) :
  parse_body response = Ok element ->
  (forall s, findtext element "MaxUploads" = Some s ->
             s <> EmptyString -> exists n, py_int s = Some n) ->
  (forall tag, In tag (findall element "Upload") ->
               exists u, Upload.init tag = Ok u) ->
  exists r, ListMultipartUploadsResult.init response = Ok r.
Proof.
  intros Hbody Hm Hu.
  apply if_truthyM_int_ok in Hm. destruct Hm as [m Hm].
  destruct (mapM_total Upload.init (findall element "Upload") Hu) as [us Hus].
  unfold ListMultipartUploadsResult.init. rewrite Hbody. simpl.
  rewrite Hm. simpl. rewrite Hus. simpl. now eexists.
Qed.

End Totality.

(** C5: parse_list_objects, ListPartsResult and ListMultipartUploadsResult
    return a result once the body is parsed and the entries and numbers
    of the document are read, and in that result is_truncated is true if
    and only if the IsTruncated element is present and its text, put in
    lower case, is the word true; an absent element and any other text
    make it false. *)
Theorem is_truncated_iff_true {rt : Runtime} (response : Response)
    (element : ET.Element) :
  parse_body response = Ok element ->
  ((forall bucket_name objects is_truncated continuation_token
           version_id_marker,
      parse_list_objects response bucket_name
      = Ok (objects, is_truncated, continuation_token, version_id_marker) ->
      (is_truncated = true
       <-> exists t, findtext element "IsTruncated" = Some t
                     /\ Py.lower t = "true")) /\
   (forall r,
      ListPartsResult.init response = Ok r ->
      (ListPartsResult.is_truncated r = true
       <-> exists t, findtext element "IsTruncated" = Some t
                     /\ Py.lower t = "true")) /\
   (forall r,
      ListMultipartUploadsResult.init response = Ok r ->
      (ListMultipartUploadsResult.is_truncated r = true
       <-> exists t, findtext element "IsTruncated" = Some t
                     /\ Py.lower t = "true"))) /\
  (forall bucket_name,
     (forall tag,
        In tag (findall element "Contents" ++ findall element "Version"
                  ++ findall element "DeleteMarker") ->
        exists o, Object.fromxml tag bucket_name = Ok o) ->
     exists objects is_truncated continuation_token version_id_marker,
       parse_list_objects response bucket_name
       = Ok (objects, is_truncated, continuation_token, version_id_marker) /\
       (is_truncated = true
        <-> exists t, findtext element "IsTruncated" = Some t
                      /\ Py.lower t = "true")) /\
  ((forall s, findtext element "NextPartNumberMarker" = Some s ->
              s <> EmptyString -> exists n, py_int s = Some n) ->
   (forall s, findtext element "MaxParts" = Some s ->
              s <> EmptyString -> exists n, py_int s = Some n) ->
   (forall tag, In tag (findall element "Part") ->
                exists p, Part.fromxml tag = Ok p) ->
   exists r,
     ListPartsResult.init response = Ok r /\
     (ListPartsResult.is_truncated r = true
      <-> exists t, findtext element "IsTruncated" = Some t
                    /\ Py.lower t = "true")) /\
  ((forall s, findtext element "MaxUploads" = Some s ->
              s <> EmptyString -> exists n, py_int s = Some n) ->
   (forall tag, In tag (findall element "Upload") ->
                exists u, Upload.init tag = Ok u) ->
   exists r,
     ListMultipartUploadsResult.init response = Ok r /\
     (ListMultipartUploadsResult.is_truncated r = true
      <-> exists t, findtext element "IsTruncated" = Some t
                    /\ Py.lower t = "true")).
Proof.
  intros Hbody. split; [| split; [| split]].
  2: { intros bucket_name Hall.
       destruct (parse_list_objects_returns response bucket_name Hbody Hall)
         as (objects & tr & tok & vm & H).
       exists objects, tr, tok, vm. split; [exact H |].
       apply parse_list_objects_ok in H.
       destruct H as (element' & _ & _ & _ & Hbody' & _ & _ & _ & _ & Ht & _).
       rewrite Hbody in Hbody'. injection Hbody' as <-.
       rewrite Ht. apply or_empty_is_true. }
  2: { intros Hn Hm Hp.
       destruct (ListPartsResult_init_returns response Hbody Hn Hm Hp)
         as [r H].
       exists r. split; [exact H |].
       unfold ListPartsResult.init in H. rewrite Hbody in H. simpl in H.
       bind_inv H. bind_inv H. bind_inv H. injection H as <-. simpl.
       apply not_none_is_true. }
  2: { intros Hm Hu.
       destruct (ListMultipartUploadsResult_init_returns response Hbody Hm Hu)
         as [r H].
       exists r. split; [exact H |].
       unfold ListMultipartUploadsResult.init in H. rewrite Hbody in H.
       simpl in H. bind_inv H. bind_inv H. injection H as <-. simpl.
       apply not_none_is_true. }
  repeat split.
  - intros Htr. apply parse_list_objects_ok in H.
    destruct H as (element' & _ & _ & _ & Hbody' & _ & _ & _ & _ & Ht & _).
    rewrite Hbody in Hbody'. injection Hbody' as <-.
    apply or_empty_is_true. now rewrite <- Ht.
  - intros Hex. apply parse_list_objects_ok in H.
    destruct H as (element' & _ & _ & _ & Hbody' & _ & _ & _ & _ & Ht & _).
    rewrite Hbody in Hbody'. injection Hbody' as <-.
    rewrite Ht. now apply or_empty_is_true.
  - unfold ListPartsResult.init in H. rewrite Hbody in H. simpl in H.
    bind_inv H. bind_inv H. bind_inv H. injection H as <-. simpl.
    apply not_none_is_true.
  - unfold ListPartsResult.init in H. rewrite Hbody in H. simpl in H.
    bind_inv H. bind_inv H. bind_inv H. injection H as <-. simpl.
    apply not_none_is_true.
  - unfold ListMultipartUploadsResult.init in H. rewrite Hbody in H.
    simpl in H. bind_inv H. bind_inv H. injection H as <-. simpl.
    apply not_none_is_true.
  - unfold ListMultipartUploadsResult.init in H. rewrite Hbody in H.
    simpl in H. bind_inv H. bind_inv H. injection H as <-. simpl.
    apply not_none_is_true.
Qed.

Lemma is_truncated_iff_true_witness :
  @parse_body (sample_runtime sample_listing) (sample_response [])
  = Ok sample_listing /\
  (exists objects continuation_token version_id_marker,
     @parse_list_objects (sample_runtime sample_listing) (sample_response [])
       (VStr "bucket")
     = Ok (objects, true, continuation_token, version_id_marker)) /\
  (exists r,
     @ListPartsResult.init (sample_runtime sample_list_parts)
       (sample_response []) = Ok r /\
     ListPartsResult.is_truncated r = true) /\
  (exists r,
     @ListMultipartUploadsResult.init (sample_runtime sample_list_uploads)
       (sample_response []) = Ok r /\
     ListMultipartUploadsResult.is_truncated r = true) /\
  (exists r,
     @ListPartsResult.init (sample_runtime sample_list_parts_full)
       (sample_response []) = Ok r /\
     ListPartsResult.is_truncated r = false).
Proof.
  split; [reflexivity |].
  split; [| split; [| split]].
  - destruct (proj1 (proj2 (@is_truncated_iff_true
                              (sample_runtime sample_listing)
                              (sample_response []) sample_listing eq_refl))
                (VStr "bucket"))
      as (objects & tr & tok & vm & H & Hflag).
    + intros tag Hin. simpl in Hin.
      destruct Hin as [<- | [<- | [<- | [<- | []]]]]; eexists; reflexivity.
    + exists objects, tok, vm.
      pose proof (proj2 Hflag (ex_intro _ "True" (conj eq_refl eq_refl)))
        as Htr.
      subst tr. exact H.
  - destruct (proj1 (proj2 (proj2 (@is_truncated_iff_true
                                     (sample_runtime sample_list_parts)
                                     (sample_response []) sample_list_parts
                                     eq_refl))))
      as (r & H & Hflag).
    + intros s Hs _. injection Hs as <-. now exists 2%Z.
    + intros s Hs. discriminate Hs.
    + intros tag Hin. simpl in Hin.
      destruct Hin as [<- | []]; eexists; reflexivity.
    + exists r. split; [exact H |].
      exact (proj2 Hflag (ex_intro _ "TRUE" (conj eq_refl eq_refl))).
  - destruct (proj2 (proj2 (proj2 (@is_truncated_iff_true
                                     (sample_runtime sample_list_uploads)
                                     (sample_response []) sample_list_uploads
                                     eq_refl))))
      as (r & H & Hflag).
    + intros s Hs. discriminate Hs.
    + intros tag Hin. simpl in Hin.
      destruct Hin as [<- | []]; eexists; reflexivity.
    + exists r. split; [exact H |].
      exact (proj2 Hflag (ex_intro _ "true" (conj eq_refl eq_refl))).
  - destruct (proj1 (proj2 (proj2 (@is_truncated_iff_true
                                     (sample_runtime sample_list_parts_full)
                                     (sample_response [])
                                     sample_list_parts_full eq_refl))))
      as (r & H & Hflag).
    + intros s Hs _. injection Hs as <-. now exists 4%Z.
    + intros s Hs _. injection Hs as <-. now exists 1000%Z.
    + intros tag Hin. simpl in Hin.
      destruct Hin as [<- | [<- | []]]; eexists; reflexivity.
    + exists r. split; [exact H |].
      destruct (ListPartsResult.is_truncated r); [| reflexivity].
      destruct (proj1 Hflag eq_refl) as (t & Ht & _). discriminate Ht.
Defined.

(** ** ETags *)

Section ETags.
Context {rt : Runtime}.

Lemma Part_fromxml_fields (element : ET.Element) (p : Part.t) :
  Part.fromxml element = Ok p ->
  exists number tag,
    findtext element "PartNumber" = Some number /\ number <> EmptyString /\
    findtext element "ETag" = Some tag /\ tag <> EmptyString /\
    Part.part_number p = VStr number /\
    Part.etag p = VStr (Py.replace Py.quote EmptyString tag).
Proof.
  unfold Part.fromxml, findtext_strict. intros H.
  bind_inv H. bind_inv H. bind_inv H. bind_inv H. injection H as <-.
  destruct (findtext element "PartNumber") as [number |]; [| discriminate].
  destruct (Py.truthy number) eqn:En; [| discriminate].
  injection Ha as <-.
  destruct (findtext element "ETag") as [tag |]; [| discriminate].
  destruct (Py.truthy tag) eqn:Et; [| discriminate].
  injection Ha0 as <-.
  exists number, tag. simpl.
  repeat split; try reflexivity; now apply truthy_nonempty.
Qed.

Lemma Complete_init_fields (response : Response) (element : ET.Element) :
  parse_body response = Ok element ->
  CompleteMultipartUploadResult.init response
  = Ok (CompleteMultipartUploadResult.mk
          (of_text (findtext element "Bucket"))
          (of_text (findtext element "Key"))
          (of_text (findtext element "Location"))
          (if_truthy (fun etag => VStr (Py.replace Py.quote EmptyString etag))
             (findtext element "ETag"))
          (of_text (getheader response "x-amz-version-id"))
          (getheaders response)).
Proof.
  intros Hbody. unfold CompleteMultipartUploadResult.init.
  rewrite Hbody. reflexivity.
Qed.

Lemma if_truthy_replace (tag : string) :
  if_truthy (fun etag => VStr (Py.replace Py.quote EmptyString etag)) (Some tag)
  = VStr (Py.replace Py.quote EmptyString tag).
Proof.
  destruct tag; reflexivity.
Qed.

End ETags.

(** C6: in Object, Part and CompleteMultipartUploadResult, an ETag whose
    XML text is [s] between two quote characters is reported without
    those quotes: as [s] when [s] itself has no quote character, as the
    text abc123 for the quoted text abc123. *)
Theorem etag_surrounding_quotes_stripped {rt : Runtime} (element : ET.Element)
    (s : string) :
  findtext element "ETag" = Some (quoted s) ->
  Py.contains Py.quote s = false ->
  (forall bucket_name o,
     Object.fromxml element bucket_name = Ok o -> Object.etag o = VStr s) /\
  (forall p, Part.fromxml element = Ok p -> Part.etag p = VStr s) /\
  (forall response,
     parse_body response = Ok element ->
     exists r, CompleteMultipartUploadResult.init response = Ok r /\
               CompleteMultipartUploadResult.etag r = VStr s).
Proof.
  intros Htag Hs.
  assert (Hq : Py.replace Py.quote EmptyString (quoted s) = s)
    by (rewrite replace_quoted; now apply replace_absent).
  repeat split.
  - intros bucket_name o H. apply Object_fromxml_fields in H.
    destruct H as (_ & _ & He & _). now rewrite He, Htag, Hq.
  - intros p H. apply Part_fromxml_fields in H.
    destruct H as (number & tag & _ & _ & Ht & _ & _ & He).
    rewrite Htag in Ht. injection Ht as <-. now rewrite He, Hq.
  - intros response Hbody. eexists.
    split; [exact (Complete_init_fields _ Hbody) |].
    simpl. now rewrite Htag, if_truthy_replace, Hq.
Qed.

Lemma etag_surrounding_quotes_stripped_witness :
  findtext sample_quoted_etag "ETag" = Some (quoted "abc123") /\
  Py.contains Py.quote "abc123" = false /\
  (exists o,
     @Object.fromxml (sample_runtime sample_quoted_etag) sample_quoted_etag
       (VStr "bucket") = Ok o /\ Object.etag o = VStr "abc123") /\
  (exists p,
     @Part.fromxml (sample_runtime sample_quoted_etag) sample_quoted_etag
     = Ok p /\ Part.etag p = VStr "abc123") /\
  (exists r,
     @CompleteMultipartUploadResult.init (sample_runtime sample_quoted_etag)
       (sample_response []) = Ok r /\
     CompleteMultipartUploadResult.etag r = VStr "abc123").
Proof.
  split; [reflexivity |].
  split; [reflexivity |].
  destruct (@etag_surrounding_quotes_stripped
              (sample_runtime sample_quoted_etag) sample_quoted_etag "abc123"
              eq_refl eq_refl)
    as (Hobject & Hpart & Hcomplete).
  split; [| split].
  - eexists. split; [reflexivity |]. eapply Hobject. reflexivity.
  - eexists. split; [reflexivity |]. eapply Hpart. reflexivity.
  - exact (Hcomplete (sample_response []) eq_refl).
Defined.

(** The quoted text abc123 read by the three parsers. *)
Example etag_abc123 :
  (exists o,
     @Object.fromxml (sample_runtime sample_listing)
       (node "Contents" [leaf "Key" "A"; leaf "ETag" (quoted "abc123")])
       (VStr "bucket") = Ok o /\ Object.etag o = VStr "abc123") /\
  (exists p,
     @Part.fromxml (sample_runtime sample_listing)
       (node "Part" [leaf "PartNumber" "1"; leaf "ETag" (quoted "abc123")])
     = Ok p /\ Part.etag p = VStr "abc123") /\
  (exists r,
     @CompleteMultipartUploadResult.init (sample_runtime sample_complete)
       (sample_response []) = Ok r /\
     CompleteMultipartUploadResult.etag r = VStr "abc123").
Proof.
  repeat split; eexists; split; vm_compute; reflexivity.
Qed.

(** C10: the quote stripping removes every quote character of the ETag
    text, wherever it stands: the etag reported by Object, Part and
    CompleteMultipartUploadResult is the text with its quote characters
    deleted and the other characters kept in their order. *)
Theorem etag_all_quotes_removed {rt : Runtime} (element : ET.Element)
    (tag : string) :
  findtext element "ETag" = Some tag ->
  exists etag,
    list_ascii_of_string etag
    = filter (fun c => negb (Ascii.eqb c Py.quote)) (list_ascii_of_string tag) /\
    Py.contains Py.quote etag = false /\
    (forall bucket_name o,
       Object.fromxml element bucket_name = Ok o -> Object.etag o = VStr etag) /\
    (forall p, Part.fromxml element = Ok p -> Part.etag p = VStr etag) /\
    (forall response,
       parse_body response = Ok element ->
       exists r, CompleteMultipartUploadResult.init response = Ok r /\
                 CompleteMultipartUploadResult.etag r = VStr etag).
Proof.
  intros Htag. exists (Py.replace Py.quote EmptyString tag).
  split; [apply replace_filter |].
  split; [apply replace_contains |].
  repeat split.
  - intros bucket_name o H. apply Object_fromxml_fields in H.
    destruct H as (_ & _ & He & _). now rewrite He, Htag.
  - intros p H. apply Part_fromxml_fields in H.
    destruct H as (number & tag' & _ & _ & Ht & _ & _ & He).
    rewrite Htag in Ht. injection Ht as <-. exact He.
  - intros response Hbody. eexists.
    split; [exact (Complete_init_fields _ Hbody) |].
    simpl. now rewrite Htag, if_truthy_replace.
Qed.

Lemma etag_all_quotes_removed_witness :
  findtext sample_inner_quote "ETag" = Some (String "a" (String Py.quote "b")) /\
  (exists o,
     @Object.fromxml (sample_runtime sample_inner_quote) sample_inner_quote
       (VStr "bucket") = Ok o /\ Object.etag o = VStr "ab") /\
  (exists p,
     @Part.fromxml (sample_runtime sample_inner_quote) sample_inner_quote
     = Ok p /\ Part.etag p = VStr "ab") /\
  (exists r,
     @CompleteMultipartUploadResult.init (sample_runtime sample_inner_quote)
       (sample_response []) = Ok r /\
     CompleteMultipartUploadResult.etag r = VStr "ab").
Proof.
  split; [reflexivity |].
  destruct (@etag_all_quotes_removed (sample_runtime sample_inner_quote)
              sample_inner_quote (String "a" (String Py.quote "b")) eq_refl)
    as (etag & Hchars & _ & Hobject & Hpart & Hcomplete).
  assert (Hetag : etag = "ab").
  { rewrite <- (string_of_list_ascii_of_string etag), Hchars. reflexivity. }
  rewrite Hetag in Hobject, Hpart, Hcomplete.
  split; [| split].
  - eexists. split; [reflexivity |]. eapply Hobject. reflexivity.
  - eexists. split; [reflexivity |]. eapply Hpart. reflexivity.
  - exact (Hcomplete (sample_response []) eq_refl).
Defined.

(** ** Parts *)

(** C7: Part.fromxml fails with MalformedResponse when the PartNumber or
    the ETag of the element is absent or empty; and for an element with a
    PartNumber and an ETag but neither LastModified nor Size it returns a
    part whose last_modified and size are absent. *)
Theorem part_requires_number_and_etag {rt : Runtime} (element : ET.Element) :
  (findtext element "PartNumber" = None \/
   findtext element "PartNumber" = Some EmptyString \/
   findtext element "ETag" = None \/
   findtext element "ETag" = Some EmptyString ->
   Part.fromxml element = Raise MalformedResponse) /\
  (forall number tag,
     findtext element "PartNumber" = Some number -> number <> EmptyString ->
     findtext element "ETag" = Some tag -> tag <> EmptyString ->
     findtext element "LastModified" = None ->
     findtext element "Size" = None ->
     exists p, Part.fromxml element = Ok p /\
               Part.last_modified p = VNone /\ Part.size p = VNone).
Proof.
  split.
  - intros H. unfold Part.fromxml, findtext_strict.
    destruct (findtext element "PartNumber") as [number |]; [| reflexivity].
    destruct number as [| c rest]; [reflexivity |]. simpl.
    destruct H as [H | [H | [H | H]]]; try discriminate H;
      rewrite H; reflexivity.
  - intros number tag Hn Hne Ht Hte Hlm Hsz.
    unfold Part.fromxml, findtext_strict. rewrite Hn, Ht, Hlm, Hsz.
    apply truthy_nonempty in Hne, Hte. rewrite Hne, Hte. simpl.
    eexists. repeat split.
Qed.

Lemma part_requires_number_and_etag_witness :
  findtext sample_part_without_etag "ETag" = None /\
  @Part.fromxml (sample_runtime sample_part) sample_part_without_etag
  = Raise MalformedResponse /\
  exists p,
    @Part.fromxml (sample_runtime sample_part) sample_part = Ok p /\
    Part.last_modified p = VNone /\ Part.size p = VNone.
Proof.
  split; [reflexivity |].
  split.
  - exact (proj1 (@part_requires_number_and_etag (sample_runtime sample_part)
                    sample_part_without_etag)
             (or_intror (or_intror (or_introl eq_refl)))).
  - refine (proj2 (@part_requires_number_and_etag (sample_runtime sample_part)
                     sample_part)
              "1" (quoted "e1") eq_refl _ eq_refl _ eq_refl eq_refl);
      discriminate.
Defined.

(** C2: the part_number of a part returned by Part.fromxml is the text of
    the PartNumber element, a string: the text is not converted to an
    integer. *)
Theorem part_number_is_text {rt : Runtime} (element : ET.Element) (p : Part.t) :
  Part.fromxml element = Ok p ->
  exists number,
    findtext element "PartNumber" = Some number /\
    Part.part_number p = VStr number /\
    is_integer (Part.part_number p) = false.
Proof.
  intros H. apply Part_fromxml_fields in H.
  destruct H as (number & tag & Hn & _ & _ & _ & Hp & _).
  exists number. rewrite Hp. repeat split. exact Hn.
Qed.

Lemma part_number_is_text_witness :
  @Part.fromxml (sample_runtime sample_part) sample_part
  = Ok (Part.init (VStr "1") (VStr "e1") VNone VNone) /\
  exists number,
    findtext sample_part "PartNumber" = Some number /\
    VStr "1" = VStr number /\
    is_integer (VStr "1") = false.
Proof.
  split; [reflexivity |].
  exact (@part_number_is_text (sample_runtime sample_part) sample_part
           (Part.init (VStr "1") (VStr "e1") VNone VNone) eq_refl).
Defined.

(** ** CompleteMultipartUploadResult *)

Lemma filter_none {A : Type} (f : A -> bool) (l : list A) :
  (forall h, In h l -> f h = false) -> filter f l = [].
Proof.
  induction l as [| h rest IH]; intros Hl; simpl.
  - reflexivity.
  - rewrite (Hl h (or_introl eq_refl)). apply IH.
    intros h' Hh'. apply Hl. now right.
Qed.

Lemma getheader_none (response : Response) (key : string) :
  (forall h, In h (headers response) -> Py.lower (fst h) <> Py.lower key) ->
  getheader response key = None.
Proof.
  intros Hnone. unfold getheader, header_values.
  rewrite filter_none; [reflexivity |].
  intros h Hin. apply String.eqb_neq. now apply Hnone.
Qed.

Lemma getheader_single (response : Response) (key : string)
    (before : list (string * string)) (name v : string)
    (after : list (string * string)) :
  headers response = before ++ (name, v) :: after ->
  Py.lower name = Py.lower key ->
  (forall h, In h (before ++ after) -> Py.lower (fst h) <> Py.lower key) ->
  getheader response key = Some v.
Proof.
  intros Hh Hname Hothers. unfold getheader, header_values.
  rewrite Hh, filter_app.
  rewrite (filter_none _ before).
  - cbn [filter fst app]. apply String.eqb_eq in Hname. rewrite Hname.
    rewrite (filter_none _ after); [reflexivity |].
    intros h Hin. apply String.eqb_neq. apply Hothers.
    apply in_or_app. now right.
  - intros h Hin. apply String.eqb_neq. apply Hothers.
    apply in_or_app. now left.
Qed.

(** A header that the response repeats: the values are joined. *)
Example getheader_repeated :
  getheader
    (sample_response [("x-amz-version-id", "v1"); ("X-Amz-Version-Id", "v2")])
    "x-amz-version-id"
  = Some "v1, v2".
Proof. reflexivity. Qed.

(** C8 as stated fails: the version header and the body are the same in
    the two responses, and the http_headers of the results differ, so
    version_id is not the only field taken from outside the document. *)
Lemma http_headers_taken_from_response :
  data sample_response_1 = data sample_response_2 /\
  @CompleteMultipartUploadResult.init (sample_runtime sample_complete)
    sample_response_1
  = Ok (CompleteMultipartUploadResult.mk (VStr "bucket") (VStr "object")
          (VStr "http://localhost:9000/bucket/object") (VStr "abc123")
          (VStr "v1") [("x-amz-version-id", "v1")]) /\
  @CompleteMultipartUploadResult.init (sample_runtime sample_complete)
    sample_response_2
  = Ok (CompleteMultipartUploadResult.mk (VStr "bucket") (VStr "object")
          (VStr "http://localhost:9000/bucket/object") (VStr "abc123")
          (VStr "v1") [("x-amz-version-id", "v1"); ("Server", "MinIO")]) /\
  [("x-amz-version-id", "v1")]
  <> [("x-amz-version-id", "v1"); ("Server", "MinIO")].
Proof.
  repeat split; discriminate.
Qed.

(** C8, amended: the version_id of a CompleteMultipartUploadResult is the
    value of the response header whose name is x-amz-version-id in any
    letter case, when the response has one header of that name, whatever
    the XML body holds, and is absent without such a header; version_id
    and http_headers are the two fields taken from the response headers,
    while bucket_name, object_name, location and etag are read from the
    XML document alone. *)
Theorem complete_multipart_upload_sources {rt : Runtime} (response : Response)
    (element : ET.Element) :
  parse_body response = Ok element ->
  exists r,
    CompleteMultipartUploadResult.init response = Ok r /\
    (forall before name v after,
       headers response = before ++ (name, v) :: after ->
       Py.lower name = "x-amz-version-id" ->
       (forall h, In h (before ++ after) ->
                  Py.lower (fst h) <> "x-amz-version-id") ->
       CompleteMultipartUploadResult.version_id r = VStr v) /\
    ((forall h, In h (headers response) ->
                Py.lower (fst h) <> "x-amz-version-id") ->
     CompleteMultipartUploadResult.version_id r = VNone) /\
    CompleteMultipartUploadResult.http_headers r = headers response /\
    CompleteMultipartUploadResult.bucket_name r
    = of_text (findtext element "Bucket") /\
    CompleteMultipartUploadResult.object_name r
    = of_text (findtext element "Key") /\
    CompleteMultipartUploadResult.location r
    = of_text (findtext element "Location") /\
    CompleteMultipartUploadResult.etag r
    = if_truthy (fun etag => VStr (Py.replace Py.quote EmptyString etag))
        (findtext element "ETag").
Proof.
  intros Hbody. eexists.
  split; [exact (Complete_init_fields _ Hbody) |].
  simpl. repeat split.
  - intros before name v after Hh Hname Hothers.
    now rewrite (getheader_single response "x-amz-version-id" before name v
                   after Hh Hname Hothers).
  - intros Hnone.
    now rewrite (getheader_none response "x-amz-version-id" Hnone).
Qed.

Lemma complete_multipart_upload_sources_witness :
  @parse_body (sample_runtime sample_complete) sample_response_3
  = Ok sample_complete /\
  findtext sample_complete "VersionId" = None /\
  exists r,
    @CompleteMultipartUploadResult.init (sample_runtime sample_complete)
      sample_response_3 = Ok r /\
    CompleteMultipartUploadResult.version_id r = VStr "v1".
Proof.
  split; [reflexivity |].
  split; [reflexivity |].
  destruct (@complete_multipart_upload_sources (sample_runtime sample_complete)
              sample_response_3 sample_complete eq_refl)
    as (r & Hr & Hversion & _).
  exists r. split; [exact Hr |].
  refine (Hversion [("Content-Type", "application/xml")] "X-Amz-Version-Id"
            "v1" [] eq_refl eq_refl _).
  intros h [<- | []]. discriminate.
Defined.

(** The same response read whole: the result is built and its version_id
    is the value of the one version header. *)
Example complete_version_id_from_header :
  @CompleteMultipartUploadResult.init (sample_runtime sample_complete)
    sample_response_3
  = Ok (CompleteMultipartUploadResult.mk (VStr "bucket") (VStr "object")
          (VStr "http://localhost:9000/bucket/object") (VStr "abc123")
          (VStr "v1")
          [("Content-Type", "application/xml"); ("X-Amz-Version-Id", "v1")]).
Proof. reflexivity. Qed.

(** ** ListAllMyBucketsResult *)

Section Buckets.
Context {rt : Runtime}.

Lemma bucket_of_reads (tag : ET.Element) (b : Bucket.t) :
  ListAllMyBucketsResult.bucket_of tag = Ok b -> bucket_reads tag b.
Proof.
  unfold ListAllMyBucketsResult.bucket_of, findtext_strict, bucket_reads.
  intros H. bind_inv H. bind_inv H. injection H as <-. simpl.
  split.
  - destruct (findtext tag "Name") as [name |]; [| discriminate].
    destruct (Py.truthy name) eqn:E; [| discriminate].
    injection Ha as <-. exists name.
    repeat split. now apply truthy_nonempty.
  - unfold if_truthyM, parse_time in Ha0.
    destruct (findtext tag "CreationDate") as [s |];
      [| now injection Ha0 as <-].
    destruct (Py.truthy s); [| now injection Ha0 as <-].
    bind_inv Ha0. injection Ha0 as <-. now exists a1.
Qed.

Lemma bucket_of_total (tag : ET.Element) :
  (exists name, findtext tag "Name" = Some name /\ name <> EmptyString) ->
  (forall s, findtext tag "CreationDate" = Some s -> s <> EmptyString ->
             exists t, strptime_rfc3339 s = Ok t) ->
  exists b, ListAllMyBucketsResult.bucket_of tag = Ok b.
Proof.
  intros (name & Hname & Hne) Hdate.
  unfold ListAllMyBucketsResult.bucket_of, findtext_strict.
  rewrite Hname. apply truthy_nonempty in Hne. rewrite Hne. simpl.
  unfold if_truthyM, parse_time.
  destruct (findtext tag "CreationDate") as [s |]; [| now eexists].
  destruct (Py.truthy s) eqn:E; [| now eexists].
  destruct (Hdate s eq_refl) as [t Ht]; [now apply truthy_nonempty |].
  rewrite Ht. now eexists.
Qed.

End Buckets.

(** C9: ListAllMyBucketsResult.fromxml returns as many buckets as the
    Buckets container has Bucket children, in document order, each with
    the text of its Name as name and, as creation_date, the parsed
    CreationDate when the element has one (absent without the element,
    the empty text kept for an empty element); a document whose Bucket
    elements all have a Name and a readable CreationDate is parsed; and a
    document without the Buckets container gives the empty sequence. *)
Theorem list_buckets_in_document_order {rt : Runtime} (element : ET.Element) :
  (find element "Buckets" = None ->
   ListAllMyBucketsResult.fromxml element = Ok (ListAllMyBucketsResult.init [])) /\
  (forall container r,
     find element "Buckets" = Some container ->
     ListAllMyBucketsResult.fromxml element = Ok r ->
     length (ListAllMyBucketsResult.buckets r)
     = length (findall container "Bucket") /\
     Forall2 bucket_reads (findall container "Bucket")
       (ListAllMyBucketsResult.buckets r)) /\
  (forall container,
     find element "Buckets" = Some container ->
     (forall tag, In tag (findall container "Bucket") ->
        (exists name, findtext tag "Name" = Some name /\ name <> EmptyString) /\
        (forall s, findtext tag "CreationDate" = Some s -> s <> EmptyString ->
                   exists t, strptime_rfc3339 s = Ok t)) ->
     exists r, ListAllMyBucketsResult.fromxml element = Ok r).
Proof.
  unfold ListAllMyBucketsResult.fromxml. repeat split.
  - intros H. now rewrite H.
  - rewrite H in H0. bind_inv H0. injection H0 as <-. simpl.
    now apply mapM_length in Ha.
  - rewrite H in H0. bind_inv H0. injection H0 as <-. simpl.
    apply mapM_Forall2 in Ha.
    eapply Forall2_impl; [| exact Ha].
    intros tag b Hb. now apply bucket_of_reads.
  - intros container Hc Hvalid. rewrite Hc.
    destruct (mapM_total ListAllMyBucketsResult.bucket_of
                (findall container "Bucket")) as [bs Hbs].
    + intros tag Hin. destruct (Hvalid tag Hin) as [Hname Hdate].
      now apply bucket_of_total.
    + rewrite Hbs. now eexists.
Qed.

Lemma list_buckets_in_document_order_witness :
  find sample_buckets "Buckets"
  = Some (node (s3ns "Buckets")
            [ node (s3ns "Bucket")
                [leaf (s3ns "Name") "alpha";
                 leaf (s3ns "CreationDate") "2020-01-01T00:00:00.000Z"];
              node (s3ns "Bucket") [leaf (s3ns "Name") "beta"] ]) /\
  @ListAllMyBucketsResult.fromxml (sample_runtime sample_buckets) sample_buckets
  = Ok (ListAllMyBucketsResult.init
          [ Bucket.init (VStr "alpha") (VDatetime 1577836800000000%Z);
            Bucket.init (VStr "beta") VNone ]) /\
  length [ Bucket.init (VStr "alpha") (VDatetime 1577836800000000%Z);
           Bucket.init (VStr "beta") VNone ] = 2%nat /\
  @ListAllMyBucketsResult.fromxml (sample_runtime sample_buckets)
    (node "ListAllMyBucketsResult" [])
  = Ok (ListAllMyBucketsResult.init []).
Proof.
  split; [reflexivity |].
  split; [reflexivity |].
  split.
  - exact (proj1 (proj1 (proj2 (@list_buckets_in_document_order
                                  (sample_runtime sample_buckets)
                                  sample_buckets))
                    _ _ eq_refl eq_refl)).
  - exact (proj1 (@list_buckets_in_document_order
                    (sample_runtime sample_buckets)
                    (node "ListAllMyBucketsResult" []))
             eq_refl).
Defined.

(** * Further properties of the module *)

(** ** Namespace stripping *)

Lemma contains_append (c : ascii) (s1 s2 : string) :
  Py.contains c (String.append s1 s2) = Py.contains c s1 || Py.contains c s2.
Proof.
  induction s1 as [| a rest IH]; simpl.
  - reflexivity.
  - now rewrite IH, orb_assoc.
Qed.

Lemma split_not_nil (c : ascii) (s : string) : Py.split c s <> [].
Proof.
  destruct s as [| a rest]; simpl; [discriminate |].
  destruct (Ascii.eqb a c); [discriminate |].
  destruct (Py.split c rest); discriminate.
Qed.

Lemma split_absent (c : ascii) (s : string) :
  Py.contains c s = false -> Py.split c s = [s].
Proof.
  induction s as [| a rest IH]; simpl; intros H.
  - reflexivity.
  - apply orb_false_iff in H. destruct H as [Ha Hrest].
    rewrite Ha, (IH Hrest). reflexivity.
Qed.

Lemma split_first_piece (c : ascii) (s1 s2 : string) :
  Py.contains c s1 = false ->
  Py.split c (String.append s1 (String c s2)) = s1 :: Py.split c s2.
Proof.
  induction s1 as [| a rest IH]; simpl; intros H.
  - now rewrite Ascii.eqb_refl.
  - apply orb_false_iff in H. destruct H as [Ha Hrest].
    rewrite Ha, (IH Hrest). reflexivity.
Qed.

Lemma split_pieces_clean (c : ascii) (s : string) :
  Forall (fun piece => Py.contains c piece = false) (Py.split c s).
Proof.
  induction s as [| a rest IH]; simpl.
  - repeat constructor.
  - destruct (Ascii.eqb a c) eqn:E.
    + constructor; [reflexivity | exact IH].
    + destruct (Py.split c rest) as [| piece pieces].
      * repeat constructor. simpl. now rewrite E.
      * inversion IH as [| ? ? Hpiece Hpieces]; subst.
        constructor; [simpl; now rewrite E, Hpiece | exact Hpieces].
Qed.

Lemma split_length (c : ascii) (s : string) :
  length (Py.split c s) = S (Py.count c s).
Proof.
  induction s as [| a rest IH]; simpl.
  - reflexivity.
  - destruct (Ascii.eqb a c); simpl.
    + now rewrite IH.
    + destruct (Py.split c rest) as [| piece pieces] eqn:E;
        [now apply split_not_nil in E | exact IH].
Qed.

Lemma contains_count (c : ascii) (s : string) :
  Py.contains c s = true <-> (0 < Py.count c s)%nat.
Proof.
  induction s as [| a rest IH]; simpl.
  - split; [discriminate | lia].
  - destruct (Ascii.eqb a c); simpl; [split; [lia | reflexivity] | exact IH].
Qed.

(** X1: for a tag written as a namespace part without closing brace, a
    closing brace and a local name without closing brace, the metadata
    key is the local name; whatever follows a second closing brace is
    dropped. *)
Theorem strip_namespace_local_name (prefix local rest : string) :
  Py.contains Py.rbrace prefix = false ->
  Py.contains Py.rbrace local = false ->
  strip_namespace (String.append prefix (String Py.rbrace local)) = local /\
  strip_namespace
    (String.append prefix
       (String Py.rbrace (String.append local (String Py.rbrace rest))))
  = local.
Proof.
  intros Hp Hl.
  assert (Hbrace : forall s,
            Py.contains Py.rbrace (String.append prefix (String Py.rbrace s))
            = true).
  { intros s. rewrite contains_append.
    change (Py.contains Py.rbrace (String Py.rbrace s)) with true.
    apply orb_true_r. }
  unfold strip_namespace. rewrite !Hbrace.
  rewrite !(split_first_piece _ _ _ Hp).
  rewrite (split_absent _ _ Hl), (split_first_piece _ _ _ Hl).
  split; reflexivity.
Qed.

Lemma strip_namespace_local_name_witness :
  strip_namespace "{http://s3.amazonaws.com/doc/2006-03-01/}color" = "color" /\
  strip_namespace "{ns}a}b}c" = "a".
Proof.
  split.
  - exact (proj1 (strip_namespace_local_name
                    "{http://s3.amazonaws.com/doc/2006-03-01/" "color"
                    EmptyString eq_refl eq_refl)).
  - exact (proj2 (strip_namespace_local_name "{ns" "a" "b}c" eq_refl eq_refl)).
Defined.

(** X2: the stripped tag never holds a closing brace, so stripping twice
    changes nothing more; a tag without closing brace is kept; and the
    index 1 taken from the split tag is always in range: the split of a
    tag has one piece more than the tag has closing braces. *)
Theorem strip_namespace_brace_free (tag : string) :
  Py.contains Py.rbrace (strip_namespace tag) = false /\
  strip_namespace (strip_namespace tag) = strip_namespace tag /\
  (Py.contains Py.rbrace tag = false -> strip_namespace tag = tag) /\
  length (Py.split Py.rbrace tag) = S (Py.count Py.rbrace tag) /\
  (Py.contains Py.rbrace tag = true ->
   exists piece,
     nth_error (Py.split Py.rbrace tag) 1 = Some piece /\
     strip_namespace tag = piece).
Proof.
  assert (Hclean : Py.contains Py.rbrace (strip_namespace tag) = false).
  { unfold strip_namespace.
    destruct (Py.contains Py.rbrace tag) eqn:E; [| exact E].
    pose proof (split_pieces_clean Py.rbrace tag) as Hall.
    destruct (Py.split Py.rbrace tag) as [| p0 [| p1 pieces]];
      try reflexivity.
    inversion Hall as [| ? ? _ Hrest]; subst.
    inversion Hrest as [| ? ? Hp1 _]; subst. exact Hp1. }
  split; [exact Hclean |].
  split; [unfold strip_namespace at 1; now rewrite Hclean |].
  split; [intros H; unfold strip_namespace; now rewrite H |].
  split; [apply split_length |].
  intros H. unfold strip_namespace. rewrite H.
  pose proof (split_length Py.rbrace tag) as Hlen.
  apply contains_count in H.
  destruct (Py.split Py.rbrace tag) as [| p0 [| p1 pieces]];
    simpl in Hlen; try lia.
  exists p1. split; reflexivity.
Qed.

Lemma strip_namespace_brace_free_witness :
  Py.contains Py.rbrace "{ns}color" = true /\
  exists piece,
    nth_error (Py.split Py.rbrace "{ns}color") 1 = Some piece /\
    strip_namespace "{ns}color" = piece.
Proof.
  split; [reflexivity |].
  exact (proj2 (proj2 (proj2 (proj2 (strip_namespace_brace_free "{ns}color"))))
           eq_refl).
Defined.

(** ** User metadata *)

Lemma dict_get_set (d : list (string * option string)) (k k' : string)
    (v : option string) :
  dict_get (dict_set d k v) k'
  = if String.eqb k k' then Some v else dict_get d k'.
Proof.
  induction d as [| [k0 w] rest IH]; simpl.
  - reflexivity.
  - destruct (String.eqb k0 k) eqn:E; simpl.
    + apply String.eqb_eq in E. subst k0.
      destruct (String.eqb k k'); reflexivity.
    + rewrite IH. destruct (String.eqb k0 k') eqn:E'; [| reflexivity].
      apply String.eqb_eq in E'. subst k0.
      now rewrite String.eqb_sym, E.
Qed.

Lemma dict_set_keys (d : list (string * option string)) (k k' : string)
    (v : option string) :
  In k' (map fst (dict_set d k v)) <-> k' = k \/ In k' (map fst d).
Proof.
  induction d as [| [k0 w] rest IH]; simpl.
  - intuition.
  - destruct (String.eqb k0 k) eqn:E; simpl.
    + apply String.eqb_eq in E. subst k0. intuition.
    + rewrite IH. intuition.
Qed.

Lemma dict_set_NoDup (d : list (string * option string)) (k : string)
    (v : option string) :
  NoDup (map fst d) -> NoDup (map fst (dict_set d k v)).
Proof.
  induction d as [| [k0 w] rest IH]; simpl; intros H.
  - constructor; [intros [] | constructor].
  - inversion H as [| ? ? Hnotin Hrest]; subst.
    destruct (String.eqb k0 k) eqn:E; simpl.
    + constructor; assumption.
    + constructor; [| now apply IH].
      rewrite dict_set_keys. intros [-> | Hin]; [| contradiction].
      now rewrite String.eqb_refl in E.
Qed.

Lemma find_snoc {A : Type} (p : A -> bool) (l : list A) (x : A) :
  List.find p (l ++ [x])
  = match List.find p l with
    | Some y => Some y
    | None => if p x then Some x else None
    end.
Proof.
  induction l as [| a rest IH]; simpl.
  - reflexivity.
  - destruct (p a); [reflexivity | exact IH].
Qed.

Lemma metadata_loop_get (l : list ET.Element)
    (acc : list (string * option string)) (key : string) :
  dict_get (fold_left metadata_step l acc) key
  = match
      List.find (fun child => String.eqb (strip_namespace (ET.tag child)) key)
        (rev l)
    with
    | Some child => Some (ET.text child)
    | None => dict_get acc key
    end.
Proof.
  revert acc. induction l as [| x rest IH]; intros acc; simpl.
  - reflexivity.
  - rewrite IH, find_snoc.
    destruct (List.find _ (rev rest)); [reflexivity |].
    unfold metadata_step. rewrite dict_get_set.
    destruct (String.eqb (strip_namespace (ET.tag x)) key); reflexivity.
Qed.

Lemma metadata_loop_keys (l : list ET.Element)
    (acc : list (string * option string)) (key : string) :
  In key (map fst (fold_left metadata_step l acc))
  <-> In key (map fst acc)
      \/ exists child, In child l /\ strip_namespace (ET.tag child) = key.
Proof.
  revert acc. induction l as [| x rest IH]; intros acc; simpl.
  - split; [now left | intros [H | (c & [] & _)]; exact H].
  - rewrite IH. unfold metadata_step. rewrite dict_set_keys. split.
    + intros [[-> | H] | (c & Hc & Hk)].
      * right. exists x. split; [now left | reflexivity].
      * now left.
      * right. exists c. split; [now right | exact Hk].
    + intros [H | (c & [<- | Hc] & Hk)].
      * left. now right.
      * left. left. now symmetry.
      * right. exists c. split; assumption.
Qed.

Lemma metadata_loop_NoDup (l : list ET.Element)
    (acc : list (string * option string)) :
  NoDup (map fst acc) -> NoDup (map fst (fold_left metadata_step l acc)).
Proof.
  revert acc. induction l as [| x rest IH]; intros acc H; simpl.
  - exact H.
  - apply IH. now apply dict_set_NoDup.
Qed.

Lemma user_metadata_loop {rt : Runtime} (element : ET.Element) :
  Object.user_metadata element
  = fold_left metadata_step (metadata_children element) [].
Proof. reflexivity. Qed.

(** X3: the metadata of an object read by Object.fromxml is a dictionary
    whose keys are all different and are exactly the tags, without their
    namespace, of the children of UserMetadata; without a UserMetadata
    element it is the empty dictionary, not [None]. *)
Theorem metadata_keys {rt : Runtime} (element : ET.Element)
    (bucket_name : value) (o : Object.t) :
  Object.fromxml element bucket_name = Ok o ->
  exists d,
    Object.metadata o = VDict d /\
    NoDup (map fst d) /\
    (forall key,
       In key (map fst d)
       <-> exists child,
             In child (metadata_children element) /\
             strip_namespace (ET.tag child) = key) /\
    (find element "UserMetadata" = None -> d = []).
Proof.
  intros H. apply Object_fromxml_fields in H.
  destruct H as (_ & _ & _ & Hmeta & _).
  exists (Object.user_metadata element).
  split; [exact Hmeta |].
  rewrite user_metadata_loop.
  split; [apply metadata_loop_NoDup; constructor |].
  split.
  - intros key. rewrite metadata_loop_keys. simpl. intuition.
  - intros Hnone. unfold metadata_children. now rewrite Hnone.
Qed.

Lemma metadata_keys_witness :
  exists o d,
    @Object.fromxml (sample_runtime sample_object) sample_object
      (VStr "bucket") = Ok o /\
    Object.metadata o = VDict d /\
    map fst d = ["color"; "plain"; "empty"] /\
    NoDup (map fst d).
Proof.
  eexists. eexists.
  split; [reflexivity |].
  split; [reflexivity |].
  split; [reflexivity |].
  destruct (@metadata_keys (sample_runtime sample_object) sample_object
              (VStr "bucket") _ eq_refl)
    as (d & Hd & Hnodup & _).
  injection Hd as <-. exact Hnodup.
Defined.

(** X4: looking a key up in the metadata of an object read by
    Object.fromxml gives the text of the last child of UserMetadata whose
    tag, without its namespace, is the key: a later child overwrites an
    earlier one of the same name; a key that no child has is not in the
    dictionary. *)
Theorem metadata_last_child_wins {rt : Runtime} (element : ET.Element)
    (bucket_name : value) (o : Object.t) (key : string) :
  Object.fromxml element bucket_name = Ok o ->
  exists d,
    Object.metadata o = VDict d /\
    dict_get d key
    = match
        List.find
          (fun child => String.eqb (strip_namespace (ET.tag child)) key)
          (rev (metadata_children element))
      with
      | Some child => Some (ET.text child)
      | None => None
      end.
Proof.
  intros H. apply Object_fromxml_fields in H.
  destruct H as (_ & _ & _ & Hmeta & _).
  exists (Object.user_metadata element).
  split; [exact Hmeta |].
  rewrite user_metadata_loop. apply metadata_loop_get.
Qed.

Lemma metadata_last_child_wins_witness :
  exists o d,
    @Object.fromxml (sample_runtime sample_object) sample_object
      (VStr "bucket") = Ok o /\
    Object.metadata o = VDict d /\
    dict_get d "color" = Some (Some "blue").
Proof.
  eexists. eexists.
  split; [reflexivity |].
  split; [reflexivity |].
  destruct (@metadata_last_child_wins (sample_runtime sample_object)
              sample_object (VStr "bucket") _ "color" eq_refl)
    as (d & Hd & Hget).
  injection Hd as <-. exact Hget.
Defined.

(** ** Objects *)

Lemma mapM_ok_each {A B : Type} (f : A -> result B) (l : list A) (l' : list B) :
  mapM f l = Ok l' -> forall x, In x l -> exists y, In y l' /\ f x = Ok y.
Proof.
  intros H. apply mapM_Forall2 in H.
  induction H as [| x y l l' Hxy Hrest IH]; intros z Hz.
  - destruct Hz.
  - destruct Hz as [<- | Hz].
    + exists y. split; [now left | exact Hxy].
    + destruct (IH z Hz) as (w & Hw & Hf). exists w. split; [now right | exact Hf].
Qed.

Lemma mapM_ok_image {A B : Type} (f : A -> result B) (l : list A) (l' : list B) :
  mapM f l = Ok l' -> forall y, In y l' -> exists x, In x l /\ f x = Ok y.
Proof.
  intros H. apply mapM_Forall2 in H.
  induction H as [| x y l l' Hxy Hrest IH]; intros z Hz.
  - destruct Hz.
  - destruct Hz as [<- | Hz].
    + exists x. split; [now left | exact Hxy].
    + destruct (IH z Hz) as (w & Hw & Hf). exists w. split; [now right | exact Hf].
Qed.

Section ObjectFields.
Context {rt : Runtime}.

Lemma Object_fromxml_numbers (element : ET.Element) (bucket_name : value)
    (o : Object.t) :
  Object.fromxml element bucket_name = Ok o ->
  if_not_none parse_time (findtext element "LastModified")
  = Ok (Object.last_modified o) /\
  if_not_none parse_int (findtext element "Size") = Ok (Object.size o) /\
  Object.version_id o = of_text (findtext element "VersionId").
Proof.
  unfold Object.fromxml. intros H.
  bind_inv H. bind_inv H.
  destruct (find element "Owner"); injection H as <-; simpl; repeat split;
    assumption.
Qed.

End ObjectFields.

(** X5: Object.fromxml returns an object exactly when the LastModified
    text, if the element is there, is a timestamp that strptime_rfc3339
    reads and the Size text, if the element is there, is a numeral that
    int reads. Nothing else is required of the element: an element
    without Key is read too. *)
Theorem Object_fromxml_succeeds_iff {rt : Runtime} (element : ET.Element)
    (bucket_name : value) :
  (exists o, Object.fromxml element bucket_name = Ok o)
  <-> (forall s, findtext element "LastModified" = Some s ->
                 exists t, strptime_rfc3339 s = Ok t) /\
      (forall s, findtext element "Size" = Some s ->
                 exists n, py_int s = Some n).
Proof.
  split.
  - intros [o H]. apply Object_fromxml_numbers in H.
    destruct H as (Hlm & Hsz & _). split.
    + intros s Hs. rewrite Hs in Hlm. simpl in Hlm. unfold parse_time in Hlm.
      bind_inv Hlm. now exists a.
    + intros s Hs. rewrite Hs in Hsz. simpl in Hsz.
      unfold parse_int, int in Hsz.
      destruct (py_int s) as [n |]; [now exists n | discriminate].
  - intros [Hlm Hsz]. now apply Object_fromxml_total.
Qed.

(** X6: in an object read by Object.fromxml the size is absent exactly
    when the element has no Size, and is otherwise the integer that int
    reads from the text (so an absent size and a size of zero differ);
    the last_modified is absent exactly when the element has no
    LastModified, and is otherwise the timestamp read from the text. *)
Theorem Object_fromxml_size_and_time {rt : Runtime} (element : ET.Element)
    (bucket_name : value) (o : Object.t) :
  Object.fromxml element bucket_name = Ok o ->
  (Object.size o = VNone <-> findtext element "Size" = None) /\
  (forall s, findtext element "Size" = Some s ->
             exists n, py_int s = Some n /\ Object.size o = VInt n) /\
  (Object.last_modified o = VNone <-> findtext element "LastModified" = None) /\
  (forall s, findtext element "LastModified" = Some s ->
             exists t, strptime_rfc3339 s = Ok t /\
                       Object.last_modified o = VDatetime t).
Proof.
  intros H. apply Object_fromxml_numbers in H.
  destruct H as (Hlm & Hsz & _).
  unfold if_not_none, parse_int, int in Hsz.
  unfold if_not_none, parse_time in Hlm.
  destruct (findtext element "Size") as [sz |].
  - destruct (py_int sz) as [n |] eqn:En; [| discriminate].
    simpl in Hsz. injection Hsz as <-.
    split; [split; discriminate |].
    split; [intros s Hs; injection Hs as <-; now exists n |].
    destruct (findtext element "LastModified") as [lm |].
    + bind_inv Hlm. injection Hlm as <-.
      split; [split; discriminate |].
      intros s Hs. injection Hs as <-. now exists a.
    + injection Hlm as <-. split; [split; reflexivity | discriminate].
  - injection Hsz as <-.
    split; [split; reflexivity |].
    split; [discriminate |].
    destruct (findtext element "LastModified") as [lm |].
    + bind_inv Hlm. injection Hlm as <-.
      split; [split; discriminate |].
      intros s Hs. injection Hs as <-. now exists a.
    + injection Hlm as <-. split; [split; reflexivity | discriminate].
Qed.

Lemma Object_fromxml_size_and_time_witness :
  exists o,
    @Object.fromxml (sample_runtime sample_object) sample_object
      (VStr "bucket") = Ok o /\
    findtext sample_object "Size" = Some "0" /\
    exists n, dec_int "0" = Some n /\ Object.size o = VInt n.
Proof.
  eexists.
  split; [reflexivity |].
  split; [reflexivity |].
  exact (proj1 (proj2 (@Object_fromxml_size_and_time
                         (sample_runtime sample_object) sample_object
                         (VStr "bucket") _ eq_refl))
           "0" eq_refl).
Defined.

(** X7: an object read by Object.fromxml is a delete marker exactly when
    its element has no Size and has a VersionId; the object built for a
    CommonPrefixes entry is never a delete marker. *)
Theorem is_delete_marker_iff {rt : Runtime} (element : ET.Element)
    (bucket_name : value) (o : Object.t) :
  Object.fromxml element bucket_name = Ok o ->
  (Object.is_delete_marker o = true
   <-> findtext element "Size" = None /\
       findtext element "VersionId" <> None) /\
  (forall tag, Object.is_delete_marker (prefix_object bucket_name tag) = false).
Proof.
  intros H. split; [| reflexivity].
  apply Object_fromxml_numbers in H. destruct H as (_ & Hsz & Hv).
  unfold Object.is_delete_marker. rewrite Hv.
  unfold if_not_none, parse_int, int in Hsz.
  destruct (findtext element "Size") as [sz |].
  - destruct (py_int sz) as [n |]; [| discriminate].
    simpl in Hsz. injection Hsz as <-. simpl.
    split; [discriminate | intros [Habs _]; discriminate Habs].
  - injection Hsz as <-. simpl.
    destruct (findtext element "VersionId"); simpl.
    + split; [intros _; split; [reflexivity | discriminate] | reflexivity].
    + split; [discriminate | intros [_ Habs]; now contradiction Habs].
Qed.

Lemma is_delete_marker_iff_witness :
  exists o,
    @Object.fromxml (sample_runtime sample_object) sample_delete_marker
      (VStr "bucket") = Ok o /\
    Object.is_delete_marker o = true.
Proof.
  eexists. split; [reflexivity |].
  apply (proj1 (@is_delete_marker_iff (sample_runtime sample_object)
                  sample_delete_marker (VStr "bucket") _ eq_refl)).
  split; [reflexivity | discriminate].
Defined.

Lemma Object_fromxml_succeeds_iff_witness :
  exists o,
    @Object.fromxml (sample_runtime sample_object) sample_object
      (VStr "bucket") = Ok o.
Proof.
  apply (proj2 (@Object_fromxml_succeeds_iff (sample_runtime sample_object)
                  sample_object (VStr "bucket"))).
  split; intros s Hs; injection Hs as <-; eexists; reflexivity.
Defined.

Lemma endswith_suffix (s suffix : string) :
  Py.endswith s suffix = true <-> exists p, s = String.append p suffix.
Proof.
  induction s as [| a rest IH]; cbn [Py.endswith].
  - destruct (String.eqb EmptyString suffix) eqn:E.
    + apply String.eqb_eq in E. subst suffix.
      split; [intros _; now exists EmptyString | reflexivity].
    + split; [discriminate |].
      intros [p Hp]. destruct p; simpl in Hp; [| discriminate Hp].
      subst suffix. discriminate E.
  - destruct (String.eqb (String a rest) suffix) eqn:E.
    + apply String.eqb_eq in E.
      split; [intros _; exists EmptyString; now rewrite <- E | reflexivity].
    + rewrite IH. split.
      * intros [p Hp]. exists (String a p). simpl. now rewrite Hp.
      * intros [p Hp]. destruct p as [| b p]; simpl in Hp.
        -- subst suffix. now rewrite String.eqb_refl in E.
        -- injection Hp as _ Hp. now exists p.
Qed.

(** X8: for an object read by Object.fromxml, is_dir raises exactly when
    the element has no Key (the object_name is then [None]), and is true
    exactly when the text of Key ends with a slash. *)
Theorem is_dir_iff {rt : Runtime} (element : ET.Element) (bucket_name : value)
    (o : Object.t) :
  Object.fromxml element bucket_name = Ok o ->
  (Object.is_dir o = None <-> findtext element "Key" = None) /\
  (Object.is_dir o = Some true
   <-> exists p, findtext element "Key" = Some (String.append p "/")).
Proof.
  intros H. apply Object_fromxml_fields in H.
  destruct H as (_ & Hname & _).
  unfold Object.is_dir. rewrite Hname.
  destruct (findtext element "Key") as [key |]; simpl.
  - split; [split; discriminate |]. split.
    + intros Hd. injection Hd as Hd. apply endswith_suffix in Hd.
      destruct Hd as [p ->]. now exists p.
    + intros [p Hp]. injection Hp as ->. f_equal.
      apply endswith_suffix. now exists p.
  - split; [split; reflexivity |].
    split; [discriminate | intros [p Hp]; discriminate Hp].
Qed.

Lemma is_dir_iff_witness :
  exists o,
    @Object.fromxml (sample_runtime sample_object) sample_object
      (VStr "bucket") = Ok o /\
    Object.is_dir o = Some true.
Proof.
  eexists. split; [reflexivity |].
  apply (proj2 (@is_dir_iff (sample_runtime sample_object) sample_object
                  (VStr "bucket") _ eq_refl)).
  exists "photos". reflexivity.
Defined.

(** ** More on parse_list_objects *)

(** X9: parse_list_objects returns one object for every Contents,
    Version, CommonPrefixes and DeleteMarker child of the document, and
    every object returned carries the bucket name handed to it. *)
Theorem listing_size_and_bucket {rt : Runtime} (response : Response)
    (bucket_name : value) (element : ET.Element) (objects : list Object.t)
    (is_truncated : bool) (continuation_token version_id_marker : value) :
  parse_body response = Ok element ->
  parse_list_objects response bucket_name
  = Ok (objects, is_truncated, continuation_token, version_id_marker) ->
  length objects
  = (length (findall element "Contents") + length (findall element "Version")
     + length (findall element "CommonPrefixes")
     + length (findall element "DeleteMarker"))%nat /\
  Forall (fun o => Object.bucket_name o = bucket_name) objects.
Proof.
  intros Hbody H. apply parse_list_objects_ok in H.
  destruct H as (element' & contents & versions & delete_markers & Hbody'
                 & Hc & Hv & Hd & Hobjs & _).
  rewrite Hbody in Hbody'. injection Hbody' as <-.
  subst objects. split.
  - rewrite !length_app, length_map.
    now rewrite (mapM_length _ _ Hc), (mapM_length _ _ Hv),
      (mapM_length _ _ Hd).
  - assert (Hall : forall l l',
              mapM (fun tag => Object.fromxml tag bucket_name) l = Ok l' ->
              Forall (fun o => Object.bucket_name o = bucket_name) l').
    { intros l l' Hm. apply Forall_forall. intros o Ho.
      destruct (mapM_ok_image _ _ Hm o Ho) as (tag & _ & Hf).
      apply Object_fromxml_fields in Hf. apply Hf. }
    repeat (apply Forall_app; split); eauto.
    apply Forall_forall. intros o Ho. apply in_map_iff in Ho.
    destruct Ho as (tag & <- & _). reflexivity.
Qed.

Lemma listing_size_and_bucket_witness :
  exists objects,
    @parse_list_objects (sample_runtime sample_listing) (sample_response [])
      (VStr "bucket")
    = Ok (objects, true, VStr "zzz", VNone) /\
    length objects = 5%nat /\
    Forall (fun o => Object.bucket_name o = VStr "bucket") objects.
Proof.
  eexists. split; [vm_compute; reflexivity |].
  exact (@listing_size_and_bucket (sample_runtime sample_listing)
           (sample_response []) (VStr "bucket") sample_listing _ true
           (VStr "zzz") VNone eq_refl eq_refl).
Defined.

(** X10: once the body is parsed, parse_list_objects returns a listing
    exactly when Object.fromxml reads every Contents, Version and
    DeleteMarker entry: one entry that cannot be read makes the whole
    call fail, and a CommonPrefixes entry never does. *)
Theorem listing_succeeds_iff {rt : Runtime} (response : Response)
    (bucket_name : value) (element : ET.Element) :
  parse_body response = Ok element ->
  ((exists r, parse_list_objects response bucket_name = Ok r)
   <-> forall tag,
         In tag (findall element "Contents" ++ findall element "Version"
                   ++ findall element "DeleteMarker") ->
         exists o, Object.fromxml tag bucket_name = Ok o).
Proof.
  intros Hbody. split.
  - intros [[[[objects tr] tok] vm] H]. apply parse_list_objects_ok in H.
    destruct H as (element' & contents & versions & delete_markers & Hbody'
                   & Hc & Hv & Hd & _).
    rewrite Hbody in Hbody'. injection Hbody' as <-.
    intros tag Hin.
    apply in_app_or in Hin. destruct Hin as [Hin | Hin];
      [| apply in_app_or in Hin; destruct Hin as [Hin | Hin]].
    + destruct (mapM_ok_each _ _ Hc tag Hin) as (o & _ & Ho). now exists o.
    + destruct (mapM_ok_each _ _ Hv tag Hin) as (o & _ & Ho). now exists o.
    + destruct (mapM_ok_each _ _ Hd tag Hin) as (o & _ & Ho). now exists o.
  - intros Hall.
    destruct (mapM_total (fun tag => Object.fromxml tag bucket_name)
                (findall element "Contents")) as [contents Hc].
    { intros tag Hin. apply Hall. apply in_or_app. now left. }
    destruct (mapM_total (fun tag => Object.fromxml tag bucket_name)
                (findall element "Version")) as [versions Hv].
    { intros tag Hin. apply Hall.
      apply in_or_app. right. apply in_or_app. now left. }
    destruct (mapM_total (fun tag => Object.fromxml tag bucket_name)
                (findall element "DeleteMarker")) as [delete_markers Hd].
    { intros tag Hin. apply Hall.
      apply in_or_app. right. apply in_or_app. now right. }
    destruct (parse_list_objects_total response bucket_name Hbody Hc Hv Hd)
      as (tr & tok & vm & H).
    eexists. exact H.
Qed.

Lemma listing_succeeds_iff_witness :
  @parse_body (sample_runtime sample_listing_bad) (sample_response [])
  = Ok sample_listing_bad /\
  In sample_bad_size (findall sample_listing_bad "Contents") /\
  @Object.fromxml (sample_runtime sample_listing_bad) sample_bad_size
    (VStr "bucket") = Raise ValueError /\
  ~ exists r,
      @parse_list_objects (sample_runtime sample_listing_bad)
        (sample_response []) (VStr "bucket") = Ok r.
Proof.
  split; [reflexivity |].
  split; [right; left; reflexivity |].
  split; [reflexivity |].
  intros Hr.
  destruct (proj1 (@listing_succeeds_iff (sample_runtime sample_listing_bad)
                     (sample_response []) (VStr "bucket") sample_listing_bad
                     eq_refl)
              Hr sample_bad_size (or_intror (or_introl eq_refl)))
    as [o Ho].
  discriminate Ho.
Defined.

(** ** Errors of Object.fromxml and sizes of parts *)

(** X11: Object.fromxml reads the timestamp before the size: a
    LastModified text that strptime_rfc3339 rejects makes the call raise
    that error whatever the Size; with LastModified absent or readable, a
    Size text that int rejects makes it raise ValueError. *)
Theorem Object_fromxml_errors {rt : Runtime} (element : ET.Element)
    (bucket_name : value) :
  (forall s e,
     findtext element "LastModified" = Some s ->
     strptime_rfc3339 s = Raise e ->
     Object.fromxml element bucket_name = Raise e) /\
  (forall s,
     (forall lm, findtext element "LastModified" = Some lm ->
                 exists t, strptime_rfc3339 lm = Ok t) ->
     findtext element "Size" = Some s ->
     py_int s = None ->
     Object.fromxml element bucket_name = Raise ValueError).
Proof.
  split.
  - intros s e Hs He. unfold Object.fromxml. rewrite Hs. simpl.
    unfold parse_time. now rewrite He.
  - intros s Hlm Hs Hint. unfold Object.fromxml. rewrite Hs.
    destruct (findtext element "LastModified") as [lm |]; simpl.
    + destruct (Hlm lm eq_refl) as [t Ht]. unfold parse_time. rewrite Ht. simpl.
      unfold parse_int, int. now rewrite Hint.
    + unfold parse_int, int. now rewrite Hint.
Qed.

Lemma Object_fromxml_errors_witness :
  findtext sample_bad_size "Size" = Some "big" /\
  dec_int "big" = None /\
  @Object.fromxml (sample_runtime sample_bad_size) sample_bad_size
    (VStr "bucket") = Raise ValueError.
Proof.
  split; [reflexivity |].
  split; [reflexivity |].
  refine (proj2 (@Object_fromxml_errors (sample_runtime sample_bad_size)
                   sample_bad_size (VStr "bucket"))
            "big" _ eq_refl eq_refl).
  intros lm Hlm. discriminate Hlm.
Defined.

(** X12: for a Part element with PartNumber and ETag and without
    LastModified, Part.fromxml keeps an empty Size as the empty string
    without handing it to int, gives the integer that int reads from a
    Size with text, and raises ValueError when int rejects that text. *)
Theorem Part_fromxml_size {rt : Runtime} (element : ET.Element)
    (number tag : string) :
  findtext element "PartNumber" = Some number -> number <> EmptyString ->
  findtext element "ETag" = Some tag -> tag <> EmptyString ->
  findtext element "LastModified" = None ->
  (findtext element "Size" = Some EmptyString ->
   Part.fromxml element
   = Ok (Part.init (VStr number)
           (VStr (Py.replace Py.quote EmptyString tag)) VNone
           (VStr EmptyString))) /\
  (forall s n,
     findtext element "Size" = Some s -> s <> EmptyString ->
     py_int s = Some n ->
     Part.fromxml element
     = Ok (Part.init (VStr number)
             (VStr (Py.replace Py.quote EmptyString tag)) VNone (VInt n))) /\
  (forall s,
     findtext element "Size" = Some s -> s <> EmptyString ->
     py_int s = None ->
     Part.fromxml element = Raise ValueError).
Proof.
  intros Hn Hne Ht Hte Hlm.
  apply truthy_nonempty in Hne, Hte.
  unfold Part.fromxml, findtext_strict. rewrite Hn, Ht, Hlm, Hne, Hte. simpl.
  repeat split.
  - intros Hs. now rewrite Hs.
  - intros s n Hs Hse Hint. apply truthy_nonempty in Hse.
    rewrite Hs. simpl. rewrite Hse. unfold parse_int, int. now rewrite Hint.
  - intros s Hs Hse Hint. apply truthy_nonempty in Hse.
    rewrite Hs. simpl. rewrite Hse. unfold parse_int, int. now rewrite Hint.
Qed.

Lemma Part_fromxml_size_witness :
  @Part.fromxml (sample_runtime sample_part) sample_part_empty_size
  = Ok (Part.init (VStr "2") (VStr "e2") VNone (VStr EmptyString)) /\
  @Part.fromxml (sample_runtime sample_part) sample_part_sized
  = Ok (Part.init (VStr "4") (VStr "e4") VNone (VInt 5242880)).
Proof.
  split.
  - refine (proj1 (@Part_fromxml_size (sample_runtime sample_part)
                     sample_part_empty_size "2" "e2" eq_refl _ eq_refl _
                     eq_refl)
              eq_refl); discriminate.
  - refine (proj1 (proj2 (@Part_fromxml_size (sample_runtime sample_part)
                            sample_part_sized "4" "e4" eq_refl _ eq_refl _
                            eq_refl))
              "5242880" 5242880%Z eq_refl _ eq_refl); discriminate.
Defined.

(** ** ListPartsResult *)

Section ListParts.
Context {rt : Runtime}.

Lemma ListPartsResult_init_fields (response : Response) (element : ET.Element)
    (r : ListPartsResult.t) :
  parse_body response = Ok element ->
  ListPartsResult.init response = Ok r ->
  if_truthyM parse_int (findtext element "NextPartNumberMarker")
  = Ok (ListPartsResult.next_part_number_marker r) /\
  if_truthyM parse_int (findtext element "MaxParts")
  = Ok (ListPartsResult.max_parts r) /\
  mapM Part.fromxml (findall element "Part") = Ok (ListPartsResult.parts r) /\
  ListPartsResult.part_number_marker r
  = of_text (findtext element "PartNumberMarker") /\
  ListPartsResult.initiator_id r = subtext (find element "Initiator") "ID" /\
  ListPartsResult.initiator_name r
  = subtext (find element "Initiator") "DisplayName" /\
  ListPartsResult.owner_id r = subtext (find element "Owner") "ID" /\
  ListPartsResult.owner_name r = subtext (find element "Owner") "DisplayName".
Proof.
  intros Hbody H. unfold ListPartsResult.init in H.
  rewrite Hbody in H. simpl in H.
  bind_inv H. bind_inv H. bind_inv H. injection H as <-. simpl.
  repeat split; assumption.
Qed.

End ListParts.

(** X13: the parts of a ListPartsResult are the Part children of the
    document read by Part.fromxml, one for each and in document order,
    wherever they stand among the other children. *)
Theorem list_parts_in_document_order {rt : Runtime} (response : Response)
    (element : ET.Element) (r : ListPartsResult.t) :
  parse_body response = Ok element ->
  ListPartsResult.init response = Ok r ->
  length (ListPartsResult.parts r) = length (findall element "Part") /\
  Forall2 (fun tag p => Part.fromxml tag = Ok p)
    (findall element "Part") (ListPartsResult.parts r).
Proof.
  intros Hbody H.
  destruct (ListPartsResult_init_fields response Hbody H) as (_ & _ & Hparts & _).
  split; [now apply mapM_length in Hparts | now apply mapM_Forall2].
Qed.

Lemma list_parts_in_document_order_witness :
  exists r,
    @ListPartsResult.init (sample_runtime sample_list_parts_full)
      (sample_response []) = Ok r /\
    map Part.part_number (ListPartsResult.parts r) = [VStr "4"; VStr "1"] /\
    length (ListPartsResult.parts r)
    = length (findall sample_list_parts_full "Part").
Proof.
  eexists. split; [vm_compute; reflexivity |].
  split; [reflexivity |].
  exact (proj1 (@list_parts_in_document_order
                  (sample_runtime sample_list_parts_full) (sample_response [])
                  sample_list_parts_full _ eq_refl eq_refl)).
Defined.

(** X14: once the body is parsed, ListPartsResult is built exactly when
    the NextPartNumberMarker and MaxParts texts, where they are not
    empty, are numerals that int reads and Part.fromxml reads every Part
    child: one part that cannot be read makes the whole result fail. *)
Theorem list_parts_succeeds_iff {rt : Runtime} (response : Response)
    (element : ET.Element) :
  parse_body response = Ok element ->
  ((exists r, ListPartsResult.init response = Ok r)
   <-> (forall s, findtext element "NextPartNumberMarker" = Some s ->
                  s <> EmptyString -> exists n, py_int s = Some n) /\
       (forall s, findtext element "MaxParts" = Some s ->
                  s <> EmptyString -> exists n, py_int s = Some n) /\
       (forall tag, In tag (findall element "Part") ->
                    exists p, Part.fromxml tag = Ok p)).
Proof.
  intros Hbody. split.
  - intros [r H].
    destruct (ListPartsResult_init_fields response Hbody H) as (Hn & Hm & Hp & _).
    split; [apply if_truthyM_int_ok; eexists; exact Hn |].
    split; [apply if_truthyM_int_ok; eexists; exact Hm |].
    intros tag Hin. destruct (mapM_ok_each _ _ Hp tag Hin) as (p & _ & Hf).
    now exists p.
  - intros (Hn & Hm & Hp).
    apply if_truthyM_int_ok in Hn, Hm.
    destruct Hn as [n Hn]. destruct Hm as [m Hm].
    destruct (mapM_total Part.fromxml (findall element "Part") Hp) as [ps Hps].
    unfold ListPartsResult.init. rewrite Hbody. simpl.
    rewrite Hn. simpl. rewrite Hm. simpl. rewrite Hps. simpl.
    now eexists.
Qed.

Lemma list_parts_succeeds_iff_witness :
  @parse_body (sample_runtime sample_list_parts_bad) (sample_response [])
  = Ok sample_list_parts_bad /\
  findtext sample_list_parts_bad "NextPartNumberMarker" = Some "four" /\
  dec_int "four" = None /\
  ~ exists r,
      @ListPartsResult.init (sample_runtime sample_list_parts_bad)
        (sample_response []) = Ok r.
Proof.
  split; [reflexivity |].
  split; [reflexivity |].
  split; [reflexivity |].
  intros Hr.
  destruct (proj1 (proj1 (@list_parts_succeeds_iff
                            (sample_runtime sample_list_parts_bad)
                            (sample_response []) sample_list_parts_bad eq_refl)
                     Hr)
              "four" eq_refl)
    as [n Hn]; discriminate.
Defined.

(** X15: in a ListPartsResult the part_number_marker is the text of
    PartNumberMarker, never an integer, while the next_part_number_marker
    is absent without the element, the empty string for an empty element
    and otherwise the integer that int reads from the text. *)
Theorem list_parts_markers {rt : Runtime} (response : Response)
    (element : ET.Element) (r : ListPartsResult.t) :
  parse_body response = Ok element ->
  ListPartsResult.init response = Ok r ->
  ListPartsResult.part_number_marker r
  = of_text (findtext element "PartNumberMarker") /\
  is_integer (ListPartsResult.part_number_marker r) = false /\
  match findtext element "NextPartNumberMarker" with
  | None => ListPartsResult.next_part_number_marker r = VNone
  | Some s =>
      if Py.truthy s
      then exists n, py_int s = Some n /\
                     ListPartsResult.next_part_number_marker r = VInt n
      else ListPartsResult.next_part_number_marker r = VStr s
  end.
Proof.
  intros Hbody H.
  destruct (ListPartsResult_init_fields response Hbody H) as (Hn & _ & _ & Hpm & _).
  split; [exact Hpm |].
  split; [rewrite Hpm; now destruct (findtext element "PartNumberMarker") |].
  unfold if_truthyM, parse_int, int in Hn.
  destruct (findtext element "NextPartNumberMarker") as [s |];
    [| now injection Hn as <-].
  destruct (Py.truthy s); [| now injection Hn as <-].
  destruct (py_int s) as [n |]; [| discriminate].
  simpl in Hn. injection Hn as <-. now exists n.
Qed.

Lemma list_parts_markers_witness :
  exists r,
    @ListPartsResult.init (sample_runtime sample_list_parts_full)
      (sample_response []) = Ok r /\
    ListPartsResult.part_number_marker r = VStr "1" /\
    ListPartsResult.next_part_number_marker r = VInt 4.
Proof.
  eexists. split; [vm_compute; reflexivity |].
  split.
  - exact (proj1 (@list_parts_markers (sample_runtime sample_list_parts_full)
                    (sample_response []) sample_list_parts_full _
                    eq_refl eq_refl)).
  - reflexivity.
Defined.

(** ** Upload and ListMultipartUploadsResult *)

Section Uploads.
Context {rt : Runtime}.

Lemma Upload_init_fields (element : ET.Element) (u : Upload.t) :
  Upload.init element = Ok u ->
  exists key,
    findtext element "Key" = Some key /\ key <> EmptyString /\
    Upload.object_name u = VStr (unquote key) /\
    Upload.upload_id u = of_text (findtext element "UploadId").
Proof.
  unfold Upload.init, findtext_strict. intros H.
  bind_inv H. bind_inv H. injection H as <-.
  destruct (findtext element "Key") as [key |]; [| discriminate].
  destruct (Py.truthy key) eqn:E; [| discriminate].
  injection Ha as <-. exists key. simpl.
  repeat split. now apply truthy_nonempty.
Qed.

Lemma ListMultipartUploadsResult_init_fields (response : Response)
    (element : ET.Element) (r : ListMultipartUploadsResult.t) :
  parse_body response = Ok element ->
  ListMultipartUploadsResult.init response = Ok r ->
  if_truthyM parse_int (findtext element "MaxUploads")
  = Ok (ListMultipartUploadsResult.max_uploads r) /\
  mapM Upload.init (findall element "Upload")
  = Ok (ListMultipartUploadsResult.uploads r) /\
  ListMultipartUploadsResult.key_marker r
  = if_truthy (fun s => VStr (unquote s)) (findtext element "KeyMarker") /\
  ListMultipartUploadsResult.next_key_marker r
  = if_truthy (fun s => VStr (unquote s)) (findtext element "NextKeyMarker") /\
  ListMultipartUploadsResult.upload_id_marker r
  = of_text (findtext element "UploadIdMarker") /\
  ListMultipartUploadsResult.next_upload_id_marker r
  = of_text (findtext element "NextUploadIdMarker").
Proof.
  intros Hbody H. unfold ListMultipartUploadsResult.init in H.
  rewrite Hbody in H. simpl in H.
  bind_inv H. bind_inv H. injection H as <-. simpl.
  repeat split; assumption.
Qed.

End Uploads.

(** X16: the uploads of a ListMultipartUploadsResult are the Upload
    children of the document, one for each and in document order; the
    object_name of each is the text of its Key, which is not empty,
    passed through unquote, and its upload_id is the text of UploadId as
    it stands. *)
Theorem list_uploads_in_document_order {rt : Runtime} (response : Response)
    (element : ET.Element) (r : ListMultipartUploadsResult.t) :
  parse_body response = Ok element ->
  ListMultipartUploadsResult.init response = Ok r ->
  length (ListMultipartUploadsResult.uploads r)
  = length (findall element "Upload") /\
  Forall2
    (fun tag u =>
       exists key,
         findtext tag "Key" = Some key /\ key <> EmptyString /\
         Upload.object_name u = VStr (unquote key) /\
         Upload.upload_id u = of_text (findtext tag "UploadId"))
    (findall element "Upload") (ListMultipartUploadsResult.uploads r).
Proof.
  intros Hbody H.
  destruct (ListMultipartUploadsResult_init_fields response Hbody H)
    as (_ & Hu & _).
  split; [now apply mapM_length in Hu |].
  apply mapM_Forall2 in Hu.
  eapply Forall2_impl; [| exact Hu].
  intros tag u Hinit. now apply Upload_init_fields.
Qed.

Lemma list_uploads_in_document_order_witness :
  exists r,
    @ListMultipartUploadsResult.init (sample_runtime sample_list_uploads_full)
      (sample_response []) = Ok r /\
    map Upload.object_name (ListMultipartUploadsResult.uploads r)
    = [VStr "my%20key"; VStr "other"] /\
    length (ListMultipartUploadsResult.uploads r)
    = length (findall sample_list_uploads_full "Upload").
Proof.
  eexists. split; [vm_compute; reflexivity |].
  split; [reflexivity |].
  exact (proj1 (@list_uploads_in_document_order
                  (sample_runtime sample_list_uploads_full)
                  (sample_response []) sample_list_uploads_full _
                  eq_refl eq_refl)).
Defined.

(** X17: in a ListMultipartUploadsResult a KeyMarker or NextKeyMarker
    with text is passed through unquote, an empty one stays the empty
    string and an absent one stays absent; the UploadIdMarker and the
    NextUploadIdMarker are never passed through unquote. *)
Theorem list_uploads_markers {rt : Runtime} (response : Response)
    (element : ET.Element) (r : ListMultipartUploadsResult.t) :
  parse_body response = Ok element ->
  ListMultipartUploadsResult.init response = Ok r ->
  (forall s, findtext element "KeyMarker" = Some s -> s <> EmptyString ->
             ListMultipartUploadsResult.key_marker r = VStr (unquote s)) /\
  (findtext element "KeyMarker" = Some EmptyString ->
   ListMultipartUploadsResult.key_marker r = VStr EmptyString) /\
  (findtext element "KeyMarker" = None ->
   ListMultipartUploadsResult.key_marker r = VNone) /\
  (forall s, findtext element "NextKeyMarker" = Some s -> s <> EmptyString ->
             ListMultipartUploadsResult.next_key_marker r = VStr (unquote s)) /\
  (findtext element "NextKeyMarker" = Some EmptyString ->
   ListMultipartUploadsResult.next_key_marker r = VStr EmptyString) /\
  (findtext element "NextKeyMarker" = None ->
   ListMultipartUploadsResult.next_key_marker r = VNone) /\
  ListMultipartUploadsResult.upload_id_marker r
  = of_text (findtext element "UploadIdMarker") /\
  ListMultipartUploadsResult.next_upload_id_marker r
  = of_text (findtext element "NextUploadIdMarker").
Proof.
  intros Hbody H.
  destruct (ListMultipartUploadsResult_init_fields response Hbody H)
    as (_ & _ & Hk & Hnk & Hu & Hnu).
  rewrite Hk, Hnk.
  repeat split; try assumption;
    try (intros s Hs Hne; rewrite Hs; apply truthy_nonempty in Hne;
         simpl; now rewrite Hne);
    intros Hs; now rewrite Hs.
Qed.

Lemma list_uploads_markers_witness :
  exists r,
    @ListMultipartUploadsResult.init (sample_runtime sample_list_uploads_full)
      (sample_response []) = Ok r /\
    ListMultipartUploadsResult.key_marker r = VStr "a%20b" /\
    ListMultipartUploadsResult.next_key_marker r = VStr EmptyString.
Proof.
  eexists. split; [vm_compute; reflexivity |].
  pose proof (@list_uploads_markers (sample_runtime sample_list_uploads_full)
                (sample_response []) sample_list_uploads_full _
                eq_refl eq_refl)
    as (Hk & _ & _ & _ & Hnk & _).
  split.
  - refine (Hk "a%20b" eq_refl _). discriminate.
  - exact (Hnk eq_refl).
Defined.

(** X18: once the body is parsed, ListMultipartUploadsResult is built
    exactly when the MaxUploads text, if not empty, is a numeral that int
    reads and Upload reads every Upload child: one upload that cannot be
    read makes the whole result fail. *)
Theorem list_uploads_succeeds_iff {rt : Runtime} (response : Response)
    (element : ET.Element) :
  parse_body response = Ok element ->
  ((exists r, ListMultipartUploadsResult.init response = Ok r)
   <-> (forall s, findtext element "MaxUploads" = Some s ->
                  s <> EmptyString -> exists n, py_int s = Some n) /\
       (forall tag, In tag (findall element "Upload") ->
                    exists u, Upload.init tag = Ok u)).
Proof.
  intros Hbody. split.
  - intros [r H].
    destruct (ListMultipartUploadsResult_init_fields response Hbody H)
      as (Hm & Hu & _).
    split; [apply if_truthyM_int_ok; eexists; exact Hm |].
    intros tag Hin. destruct (mapM_ok_each _ _ Hu tag Hin) as (u & _ & Hf).
    now exists u.
  - intros (Hm & Hu).
    apply if_truthyM_int_ok in Hm. destruct Hm as [m Hm].
    destruct (mapM_total Upload.init (findall element "Upload") Hu)
      as [us Hus].
    unfold ListMultipartUploadsResult.init. rewrite Hbody. simpl.
    rewrite Hm. simpl. rewrite Hus. simpl. now eexists.
Qed.

Lemma list_uploads_succeeds_iff_witness :
  @parse_body (sample_runtime sample_list_uploads_bad) (sample_response [])
  = Ok sample_list_uploads_bad /\
  @Upload.init (sample_runtime sample_list_uploads_bad)
    (node "Upload" [leaf "UploadId" "u"]) = Raise MalformedResponse /\
  ~ exists r,
      @ListMultipartUploadsResult.init (sample_runtime sample_list_uploads_bad)
        (sample_response []) = Ok r.
Proof.
  split; [reflexivity |].
  split; [reflexivity |].
  intros Hr.
  destruct (proj2 (proj1 (@list_uploads_succeeds_iff
                            (sample_runtime sample_list_uploads_bad)
                            (sample_response []) sample_list_uploads_bad
                            eq_refl)
                     Hr)
              (node "Upload" [leaf "UploadId" "u"])
              (or_intror (or_introl eq_refl)))
    as [u Hu].
  discriminate Hu.
Defined.

(** ** More on CompleteMultipartUploadResult and ListAllMyBucketsResult *)

(** X19: CompleteMultipartUploadResult fails only on the body: it is
    built whenever the body is parsed, whatever elements the document
    has, and it raises exactly the error of decoding or parsing the
    body. *)
Theorem complete_fails_only_on_body {rt : Runtime} (response : Response) :
  ((exists r, CompleteMultipartUploadResult.init response = Ok r)
   <-> exists element, parse_body response = Ok element) /\
  (forall e,
     CompleteMultipartUploadResult.init response = Raise e
     <-> parse_body response = Raise e).
Proof.
  unfold CompleteMultipartUploadResult.init.
  destruct (parse_body response) as [element | e0]; simpl.
  - split.
    + split; intros _; eexists; reflexivity.
    + intros e. split; discriminate.
  - split.
    + split; intros [x Hx]; discriminate Hx.
    + intros e. split; intros He; injection He as <-; reflexivity.
Qed.

Lemma complete_fails_only_on_body_witness :
  @parse_body failing_runtime (sample_response []) = Raise ParseError /\
  @CompleteMultipartUploadResult.init failing_runtime (sample_response [])
  = Raise ParseError.
Proof.
  split; [reflexivity |].
  exact (proj2 (proj2 (@complete_fails_only_on_body failing_runtime
                         (sample_response []))
                  ParseError)
           eq_refl).
Defined.

(** X20: ListAllMyBucketsResult.fromxml reads the first Buckets child of
    the document only: Bucket elements elsewhere in the document, and a
    second Buckets container, change nothing in the result. *)
Theorem buckets_first_container_only {rt : Runtime} (element : ET.Element)
    (container : ET.Element) (tag : string) (text : option string) :
  find element "Buckets" = Some container ->
  ListAllMyBucketsResult.fromxml element
  = ListAllMyBucketsResult.fromxml (ET.mkElement tag text [container]).
Proof.
  intros H. unfold ListAllMyBucketsResult.fromxml. rewrite H.
  unfold find in *. apply find_some in H. destruct H as [_ Hname].
  simpl. now rewrite Hname.
Qed.

Lemma buckets_first_container_only_witness :
  find sample_buckets_stray "Buckets"
  = Some (node "Buckets" [node "Bucket" [leaf "Name" "alpha"]]) /\
  @ListAllMyBucketsResult.fromxml (sample_runtime sample_buckets)
    sample_buckets_stray
  = Ok (ListAllMyBucketsResult.init [Bucket.init (VStr "alpha") VNone]).
Proof.
  split; [reflexivity |].
  rewrite (@buckets_first_container_only (sample_runtime sample_buckets)
             sample_buckets_stray
             (node "Buckets" [node "Bucket" [leaf "Name" "alpha"]])
             "ListAllMyBucketsResult" None eq_refl).
  reflexivity.
Defined.

(** ** Which error a listing raises *)

Lemma mapM_first_error {A B : Type} (f : A -> result B) (l : list A) :
  match mapM f l with
  | Ok _ => first_error f l = None
  | Raise e => first_error f l = Some e
  end.
Proof.
  induction l as [| x rest IH]; simpl.
  - reflexivity.
  - destruct (f x) as [y | e]; simpl; [| reflexivity].
    destruct (mapM f rest); simpl; exact IH.
Qed.

Lemma first_error_app {A B : Type} (f : A -> result B) (l1 l2 : list A) :
  first_error f (l1 ++ l2)
  = match first_error f l1 with
    | Some e => Some e
    | None => first_error f l2
    end.
Proof.
  induction l1 as [| x rest IH]; simpl.
  - reflexivity.
  - destruct (f x); [exact IH | reflexivity].
Qed.

(** X21: once the body is parsed, the exception that parse_list_objects
    raises is the one of the first entry that Object.fromxml cannot
    read, the Contents entries being read before the Version entries and
    those before the DeleteMarker entries, whatever their order in the
    document. *)
Theorem listing_raises_first_error {rt : Runtime} (response : Response)
    (bucket_name : value) (element : ET.Element) (e : exn) :
  parse_body response = Ok element ->
  (parse_list_objects response bucket_name = Raise e
   <-> first_error (fun tag => Object.fromxml tag bucket_name)
         (findall element "Contents" ++ findall element "Version"
            ++ findall element "DeleteMarker")
       = Some e).
Proof.
  intros Hbody. unfold parse_list_objects. rewrite Hbody. simpl.
  rewrite !first_error_app.
  pose proof (mapM_first_error (fun tag => Object.fromxml tag bucket_name)
                (findall element "Contents")) as Hc.
  pose proof (mapM_first_error (fun tag => Object.fromxml tag bucket_name)
                (findall element "Version")) as Hv.
  pose proof (mapM_first_error (fun tag => Object.fromxml tag bucket_name)
                (findall element "DeleteMarker")) as Hd.
  destruct (mapM _ (findall element "Contents")) as [cs | ec]; rewrite Hc;
    simpl; [| split; intros H; injection H as <-; reflexivity].
  destruct (mapM _ (findall element "Version")) as [vs | ev]; rewrite Hv;
    simpl; [| split; intros H; injection H as <-; reflexivity].
  destruct (mapM _ (findall element "DeleteMarker")) as [ds | ed]; rewrite Hd;
    simpl; [split; discriminate |].
  split; intros H; injection H as <-; reflexivity.
Qed.

Lemma listing_raises_first_error_witness :
  @parse_body (sample_runtime sample_listing_bad) (sample_response [])
  = Ok sample_listing_bad /\
  @parse_list_objects (sample_runtime sample_listing_bad) (sample_response [])
    (VStr "bucket") = Raise ValueError.
Proof.
  split; [reflexivity |].
  exact (proj2 (@listing_raises_first_error (sample_runtime sample_listing_bad)
                  (sample_response []) (VStr "bucket") sample_listing_bad
                  ValueError eq_refl)
           eq_refl).
Defined.

(** ** Owner of an object and reading of a part *)

(** X22: an object read by Object.fromxml has no owner_id and no
    owner_name when its element has no Owner; with an Owner, the owner_id
    is the text of the ID child of the first Owner and the owner_name
    that of its DisplayName child, each absent on its own when the child
    is missing. *)
Theorem Object_fromxml_owner {rt : Runtime} (element : ET.Element)
    (bucket_name : value) (o : Object.t) :
  Object.fromxml element bucket_name = Ok o ->
  (find element "Owner" = None ->
   Object.owner_id o = VNone /\ Object.owner_name o = VNone) /\
  (forall owner,
     find element "Owner" = Some owner ->
     Object.owner_id o = of_text (findtext owner "ID") /\
     Object.owner_name o = of_text (findtext owner "DisplayName") /\
     (Object.owner_id o = VNone <-> find owner "ID" = None) /\
     (Object.owner_name o = VNone <-> find owner "DisplayName" = None)).
Proof.
  unfold Object.fromxml. intros H.
  bind_inv H. bind_inv H.
  destruct (find element "Owner") as [owner |]; injection H as <-; simpl.
  - split; [discriminate |].
    intros owner' Ho. injection Ho as <-.
    split; [reflexivity |]. split; [reflexivity |].
    unfold findtext.
    split.
    + destruct (find owner "ID") as [c |];
        [destruct (ET.text c); simpl; split; discriminate
        | split; reflexivity].
    + destruct (find owner "DisplayName") as [c |];
        [destruct (ET.text c); simpl; split; discriminate
        | split; reflexivity].
  - split; [intros _; split; reflexivity | discriminate].
Qed.

Lemma Object_fromxml_owner_witness :
  exists o,
    @Object.fromxml (sample_runtime sample_object) sample_object
      (VStr "bucket") = Ok o /\
    Object.owner_id o = VStr "minio" /\ Object.owner_name o = VNone.
Proof.
  eexists. split; [reflexivity |].
  destruct (proj2 (@Object_fromxml_owner (sample_runtime sample_object)
                     sample_object (VStr "bucket") _ eq_refl)
              (node (s3ns "Owner") [leaf (s3ns "ID") "minio"]) eq_refl)
    as (Hid & Hname & _).
  split; [exact Hid | exact Hname].
Defined.

(** X23: Part.fromxml returns a part exactly when the element has a
    PartNumber and an ETag with text, its LastModified text, if the
    element is there, is read by strptime_rfc3339, and its Size text, if
    not empty, is read by int. *)
Theorem Part_fromxml_succeeds_iff {rt : Runtime} (element : ET.Element) :
  (exists p, Part.fromxml element = Ok p)
  <-> (exists number, findtext element "PartNumber" = Some number
                      /\ number <> EmptyString) /\
      (exists tag, findtext element "ETag" = Some tag /\ tag <> EmptyString) /\
      (forall s, findtext element "LastModified" = Some s ->
                 exists t, strptime_rfc3339 s = Ok t) /\
      (forall s, findtext element "Size" = Some s -> s <> EmptyString ->
                 exists n, py_int s = Some n).
Proof.
  split.
  - intros [p H].
    pose proof (Part_fromxml_fields _ H)
      as (number & tag & Hn & Hne & Ht & Hte & _).
    split; [now exists number |]. split; [now exists tag |].
    unfold Part.fromxml, findtext_strict in H. rewrite Hn, Ht in H.
    apply truthy_nonempty in Hne, Hte. rewrite Hne, Hte in H. simpl in H.
    bind_inv H. bind_inv H. split.
    + intros s Hs. rewrite Hs in Ha. simpl in Ha. unfold parse_time in Ha.
      bind_inv Ha. now exists a1.
    + apply if_truthyM_int_ok. eexists. exact Ha0.
  - intros ((number & Hn & Hne) & (tag & Ht & Hte) & Hlm & Hsz).
    apply truthy_nonempty in Hne, Hte.
    apply if_truthyM_int_ok in Hsz. destruct Hsz as [v Hv].
    unfold Part.fromxml, findtext_strict. rewrite Hn, Ht, Hne, Hte. simpl.
    destruct (findtext element "LastModified") as [lm |]; simpl.
    + destruct (Hlm lm eq_refl) as [t Hlt]. unfold parse_time. rewrite Hlt.
      simpl. rewrite Hv. simpl. now eexists.
    + rewrite Hv. simpl. now eexists.
Qed.

Lemma Part_fromxml_succeeds_iff_witness :
  exists p, @Part.fromxml (sample_runtime sample_part) sample_part_sized = Ok p.
Proof.
  apply (proj2 (@Part_fromxml_succeeds_iff (sample_runtime sample_part)
                  sample_part_sized)).
  split; [exists "4"; split; [reflexivity | discriminate] |].
  split; [exists "e4"; split; [reflexivity | discriminate] |].
  split; [intros s Hs; discriminate Hs |].
  intros s Hs _. injection Hs as <-. now exists 5242880%Z.
Defined.
